(** * A task backend over a document store: model and properties

    Shallow embedding of [src/main.py]: the document serializer
    [serialize_doc], the diagnostics endpoint [test_database] and the task
    handlers [create_task], [toggle_task], [update_task] and [delete_task].

    Python values are an inductive type, a [dict] is a finite map on strings,
    the handlers run in a state-and-exception monad over the process state
    (the global [db] handle, the clock, the environment), and [serialize_doc]
    is additionally modelled on a heap of dict objects, so that its copying
    discipline is visible. *)

From Stdlib Require Import ZArith String Ascii List.
From Stdlib Require Import HexadecimalString HexadecimalN.
From stdpp Require Import base option gmap strings list fin_maps infinite pretty.

Open Scope string_scope.

(** ** External libraries

    [bson.ObjectId] and [datetime.datetime] come from outside the repository.
    They are kept abstract: an identifier type with its string codec
    ([ObjectId(s)] raises [InvalidId] exactly when [ObjectId_of_str s] is
    [None]; [str(oid)] is [str_ObjectId oid]) and a timestamp type with
    [isoformat]. *)
Class Library := {
  ObjectId : Type;
  ObjectId_eq_dec :: EqDecision ObjectId;
  ObjectId_countable :: Countable ObjectId;
  ObjectId_infinite :: Infinite ObjectId;
  ObjectId_of_str : string → option ObjectId;
  str_ObjectId : ObjectId → string;
  ObjectId_of_str_str : ∀ o, ObjectId_of_str (str_ObjectId o) = Some o;
  ObjectId_of_str_empty : ObjectId_of_str "" = None;
  datetime : Type;
  datetime_eq_dec :: EqDecision datetime;
  isoformat : datetime → string;
}.

Section Values.
Context {L : Library}.

(** ** Python values held in documents *)
Inductive value :=
  | VNone
  | VBool (b : bool)
  | VInt (z : Z)
  | VStr (s : string)
  | VDatetime (t : datetime)
  | VObjectId (o : ObjectId).

#[export] Instance value_eq_dec : EqDecision value.
Proof. solve_decision. Defined.

#[export] Instance value_inhabited : Inhabited value := populate VNone.

(** [v is None] *)
Definition is_None (v : value) : bool :=
  match v with VNone => true | _ => false end.

(** Python truthiness, as used by [not v] and [if v]. *)
Definition truthy (v : value) : bool :=
  match v with
  | VNone => false
  | VBool b => b
  | VInt z => negb (Z.eqb z 0)
  | VStr s => negb (String.eqb s "")
  | VDatetime _ => true
  | VObjectId _ => true
  end.

(** [d.get(k, dflt)] *)
Definition dict_get (d : gmap string value) (k : string) (dflt : value) : value :=
  default dflt (d !! k).

(** [not doc] for [doc] that is [None] or a dict. *)
Definition falsy_doc (doc : option (gmap string value)) : bool :=
  match doc with
  | None => true
  | Some d => bool_decide (d = ∅)
  end.

(** ** [serialize_doc] on a heap of dict objects

    A Python [dict] is a mutable object, so the function is first modelled
    where that matters: dict objects live in a heap, a variable holds a
    location, [None] is the absent location. *)
Definition loc := positive.

(** The dict stored at [l]. *)
Definition deref (h : gmap loc (gmap string value)) (l : loc) : gmap string value :=
  default ∅ (h !! l).

(** [{**doc}]: a new dict object with the same items. *)
Definition dict_copy (l : loc) (h : gmap loc (gmap string value))
  : loc * gmap loc (gmap string value) :=
  let l' := fresh (dom h) in (l', <[l' := deref h l]> h).

(** [doc[k] = v] *)
Definition setitem (l : loc) (k : string) (v : value)
    (h : gmap loc (gmap string value)) : gmap loc (gmap string value) :=
  <[l := <[k := v]> (deref h l)]> h.

(** [del doc[k]], for a key that is present. *)
Definition delitem (l : loc) (k : string)
    (h : gmap loc (gmap string value)) : gmap loc (gmap string value) :=
  <[l := delete k (deref h l)]> h.

(** One turn of the loop [for k, v in list(doc.items())]. *)
Definition isoformat_item (doc : loc) (k : string) (v : value)
    (h : gmap loc (gmap string value)) : gmap loc (gmap string value) :=
  match v with
  | VDatetime t => setitem doc k (VStr (isoformat t)) h
  | _ => h
  end.

Definition serialize_doc (doc : option loc) (h : gmap loc (gmap string value))
  : option loc * gmap loc (gmap string value) :=
  match doc with
  | None => (doc, h)                                   (* if not doc: return doc *)
  | Some l =>
    if falsy_doc (Some (deref h l)) then (doc, h)      (* if not doc: return doc *)
    else
      let '(doc, h) := dict_copy l h in                (* doc = {**doc} *)
      let _id := deref h doc !! "_id" in               (* _id = doc.get("_id") *)
      let h :=
        match _id with
        | Some (VObjectId o) =>                        (* isinstance(_id, ObjectId) *)
          delitem doc "_id" (setitem doc "id" (VStr (str_ObjectId o)) h)
        | _ => h
        end in
      let h := map_fold (isoformat_item doc) h (deref h doc) in
      (Some doc, h)
  end.

(** ** [serialize_doc] on values

    The handlers pass dict values around; this is what [serialize_doc]
    computes on them ([serialize_doc_deref] below relates the two). *)
Definition isoformat_value (v : value) : value :=
  match v with
  | VDatetime t => VStr (isoformat t)
  | _ => v
  end.

Definition rewrite_id (d : gmap string value) : gmap string value :=
  match d !! "_id" with
  | Some (VObjectId o) => delete "_id" (<["id" := VStr (str_ObjectId o)]> d)
  | _ => d
  end.

Definition serialize_doc_value (doc : option (gmap string value))
  : option (gmap string value) :=
  match doc with
  | None => None
  | Some d =>
    if falsy_doc (Some d) then Some d
    else Some (isoformat_value <$> rewrite_id d)
  end.

End Values.

(** ** Exceptions and the handler monad *)

(** [fastapi.HTTPException(status_code, detail)], and any other exception by
    class name and message. *)
Inductive exn :=
  | HTTPException (status_code : nat) (detail : string)
  | Exception (class_name : string) (msg : string).

(** [str(e)] *)
Definition str_exn (e : exn) : string :=
  match e with
  | HTTPException c d => pretty c +:+ ": " +:+ d
  | Exception _ m => m
  end.

Inductive outcome (A : Type) :=
  | Return (a : A)
  | Raise (e : exn).
Arguments Return {A} a.
Arguments Raise {A} e.

(** A computation over a state [S] that returns or raises; the state
    survives a raise, as mutations do in Python. *)
Definition M (S A : Type) : Type := S → outcome A * S.

#[export] Instance M_ret {S} : MRet (M S) := λ A a s, (Return a, s).

#[export] Instance M_bind {S} : MBind (M S) := λ A B k m s,
  match m s with
  | (Return a, s') => k a s'
  | (Raise e, s') => (Raise e, s')
  end.

(** An outcome that does not depend on the state. *)
Definition lift {S A} (r : outcome A) : M S A := λ s, (r, s).

Definition raise {S A} (e : exn) : M S A := lift (Raise e).

(** [try: m  except Exception as e: handler e] *)
Definition try_except {S A} (m : M S A) (handler : exn → M S A) : M S A := λ s,
  match m s with
  | (Return a, s') => (Return a, s')
  | (Raise e, s') => handler e s'
  end.

Definition gets {S A} (f : S → A) : M S A := λ s, (Return (f s), s).
Definition modify {S} (f : S → S) : M S unit := λ s, (Return tt, f s).

(** Run a computation on the globals inside one that also has locals. *)
Definition global {S G A} (m : M G A) : M (S * G) A := λ s,
  let '(r, g) := m s.2 in (r, (s.1, g)).

(** Run a computation on the locals. *)
Definition local_ {S G A} (m : M S A) : M (S * G) A := λ s,
  let '(r, l) := m s.1 in (r, (l, s.2)).

(** ** The process state: the [db] handle, the clock, the environment *)

(** What [getattr(db, 'name')] does. *)
Inductive getattr_result :=
  | Attr (v : string)
  | NoAttr                 (* AttributeError: [hasattr] is [False] *)
  | AttrRaises (e : exn).  (* any other exception: [hasattr] lets it through *)

(** A call made on the database driver. *)
Inductive call {L : Library} :=
  | FindOne (collection : string) (_id : ObjectId)
  | UpdateOne (collection : string) (_id : ObjectId) (set_ : gmap string value)
  | DeleteOne (collection : string) (_id : ObjectId)
  | InsertOne (collection : string) (document : gmap string value)
  | ListCollectionNames.

(** The database behind the handle. A collection maps [_id] to the other
    fields of the document. [db_fault = Some (cls, msg)]: the server does
    not answer and every driver call raises the driver's exception [cls] with
    message [msg]. [db_issued]: the identifiers the driver has generated so
    far. *)
Record Database {L : Library} := {
  db_name : getattr_result;
  db_fault : option (string * string);
  db_collection_names : list string;
  db_collections : gmap string (gmap ObjectId (gmap string value));
  db_issued : gset ObjectId;
}.

(** [db] is [None] when the application started without a database.
    [calls] records the driver calls made, latest first. *)
Record World {L : Library} := {
  db : option Database;
  clock : datetime;
  environ : gmap string string;
  calls : list call;
}.

Section Model.
Context {L : Library}.

Definition set_collections (f : gmap string (gmap ObjectId (gmap string value)) →
                                gmap string (gmap ObjectId (gmap string value)))
    (d : Database) : Database :=
  {| db_name := db_name d; db_fault := db_fault d;
     db_collection_names := db_collection_names d;
     db_collections := f (db_collections d); db_issued := db_issued d |}.

Definition set_issued (f : gset ObjectId → gset ObjectId) (d : Database) : Database :=
  {| db_name := db_name d; db_fault := db_fault d;
     db_collection_names := db_collection_names d;
     db_collections := db_collections d; db_issued := f (db_issued d) |}.

Definition set_db (d : Database) (w : World) : World :=
  {| db := Some d; clock := clock w; environ := environ w; calls := calls w |}.

Definition log_call (c : call) (w : World) : World :=
  {| db := db w; clock := clock w; environ := environ w; calls := c :: calls w |}.

(** The clock moves on. *)
Definition set_clock (t : datetime) (w : World) : World :=
  {| db := db w; clock := t; environ := environ w; calls := calls w |}.

(** The documents of collection [c] ([db[c]]); a collection that was never
    written is empty. *)
Definition collection (d : Database) (c : string) : gmap ObjectId (gmap string value) :=
  default ∅ (db_collections d !! c).

Definition set_collection (c : string) (docs : gmap ObjectId (gmap string value))
    (d : Database) : Database :=
  set_collections (insert c docs) d.

(** The stored documents of collection [c] in [w]; none without a database. *)
Definition stored (w : World) (c : string) : gmap ObjectId (gmap string value) :=
  from_option (λ d, collection d c) ∅ (db w).

(** [datetime.utcnow()] *)
Definition utcnow : M World datetime := gets clock.

(** [os.getenv(k)] *)
Definition getenv (k : string) : M World (option string) := gets (λ w, environ w !! k).

(** [ObjectId(s)] *)
Definition ObjectId_ (s : string) : outcome ObjectId :=
  match ObjectId_of_str s with
  | Some o => Return o
  | None => Raise (Exception "InvalidId" s)
  end.

(** A driver call on [db]: [db[...]] on [None] is a [TypeError]; the call is
    recorded; a faulty server raises; otherwise [f] gives the answer and the
    new database. *)
Definition driver_call {A} (c : call) (f : Database → A * Database) : M World A := λ w,
  match db w with
  | None => (Raise (Exception "TypeError" "'NoneType' object is not subscriptable"), w)
  | Some d =>
    match db_fault d with
    | Some (cls, msg) => (Raise (Exception cls msg), log_call c w)
    | None => let '(a, d') := f d in (Return a, set_db d' (log_call c w))
    end
  end.

(** [db[c].find_one({"_id": oid})]: the document, with its [_id], or [None]. *)
Definition find_one (c : string) (oid : ObjectId) : M World (option (gmap string value)) :=
  driver_call (FindOne c oid)
    (λ d, (insert "_id" (VObjectId oid) <$> collection d c !! oid, d)).

(** [db[c].update_one({"_id": oid}, {"$set": fields}).matched_count], for
    [fields] that do not name [_id]. *)
Definition update_one (c : string) (oid : ObjectId) (fields : gmap string value) : M World nat :=
  driver_call (UpdateOne c oid fields)
    (λ d, match collection d c !! oid with
          | Some doc => (1, set_collection c (<[oid := fields ∪ doc]> (collection d c)) d)
          | None => (0, d)
          end).

(** [db[c].delete_one({"_id": oid}).deleted_count] *)
Definition delete_one (c : string) (oid : ObjectId) : M World nat :=
  driver_call (DeleteOne c oid)
    (λ d, match collection d c !! oid with
          | Some _ => (1, set_collection c (delete oid (collection d c)) d)
          | None => (0, d)
          end).

(** [db[c].insert_one(doc).inserted_id], for [doc] without [_id]: the driver
    generates an identifier it has not generated before. *)
Definition insert_one (c : string) (doc : gmap string value) : M World ObjectId :=
  driver_call (InsertOne c doc)
    (λ d, let oid := fresh (db_issued d ∪ dom (collection d c)) in
          (oid, set_issued (union {[oid]})
                  (set_collection c (<[oid := doc]> (collection d c)) d))).

(** [db.list_collection_names()] *)
Definition list_collection_names : M World (list string) :=
  driver_call ListCollectionNames (λ d, (db_collection_names d, d)).

End Model.

(** ** Request and response models *)

(** [class TaskCreate(BaseModel)] *)
Record TaskCreate {L : Library} := {
  create_title : string;
  create_notes : option string;
  create_due_at : option datetime;
}.

(** [class TaskUpdate(BaseModel)]: every field is [Optional] with default
    [None], so a field left out of the body and a field sent as [null] are
    both [None]. *)
Record TaskUpdate {L : Library} := {
  update_title : option string;
  update_notes : option string;
  update_due_at : option datetime;
  update_completed : option bool;
}.

(** Modelled from the spec: [schemas.Task], the stored entity of spec section 3
    as far as [create_task] fills it in (title, notes, due_at, completed). *)
Record Task {L : Library} := {
  task_title : string;
  task_notes : option string;
  task_due_at : option datetime;
  task_completed : bool;
}.

(** Modelled from the spec: [schemas.TaskOut], the output shape of spec
    section 6: [{id: string, title: string, notes: string|null,
    due_at: ISO8601|null, completed: bool, created_at?: ISO8601,
    updated_at?: ISO8601}]. *)
Record TaskOut := {
  out_id : string;
  out_title : string;
  out_notes : option string;
  out_due_at : option string;
  out_completed : bool;
  out_created_at : option string;
  out_updated_at : option string;
}.

(** The body of [GET /test]. *)
Record Diagnostics := {
  backend : string;
  database : string;
  database_url : option string;
  database_name : option string;
  connection_status : string;
  collections : list string;
}.

Section Handlers.
Context {L : Library}.

(** [Field(..., min_length=1, max_length=200)] and [Field(None, max_length=2000)] *)
Definition TaskCreate_valid (p : TaskCreate) : bool :=
  (1 <=? String.length (create_title p))%nat
  && (String.length (create_title p) <=? 200)%nat
  && from_option (λ n, (String.length n <=? 2000)%nat) true (create_notes p).

Definition TaskUpdate_valid (p : TaskUpdate) : bool :=
  from_option (λ t, (1 <=? String.length t)%nat && (String.length t <=? 200)%nat)
    true (update_title p)
  && from_option (λ n, (String.length n <=? 2000)%nat) true (update_notes p).

(** An optional field as a Python value. *)
Definition optional {A} (f : A → value) (x : option A) : value :=
  from_option f VNone x.

(** [payload.model_dump()] for a [TaskUpdate] *)
Definition TaskUpdate_model_dump (p : TaskUpdate) : gmap string value :=
  {[ "title" := optional VStr (update_title p);
     "notes" := optional VStr (update_notes p);
     "due_at" := optional VDatetime (update_due_at p);
     "completed" := optional VBool (update_completed p) ]}.

(** Modelled from the spec: [data.model_dump()] for a [schemas.Task]. *)
Definition Task_model_dump (t : Task) : gmap string value :=
  {[ "title" := VStr (task_title t);
     "notes" := optional VStr (task_notes t);
     "due_at" := optional VDatetime (task_due_at t);
     "completed" := VBool (task_completed t) ]}.

(** An optional string field of the output shape: absent or [null], or a string. *)
Definition optional_str (d : gmap string value) (k : string) : option (option string) :=
  match d !! k with
  | None | Some VNone => Some None
  | Some (VStr s) => Some (Some s)
  | Some _ => None
  end.

(** Modelled from the spec: validation of the keyword arguments of
    [schemas.TaskOut] against the output shape of spec section 6; keys outside
    the shape are ignored. [None] is a validation error. *)
Definition TaskOut_validate (d : gmap string value) : option TaskOut :=
  match d !! "id", d !! "title", d !! "completed" with
  | Some (VStr i), Some (VStr t), Some (VBool c) =>
    n ← optional_str d "notes";
    due ← optional_str d "due_at";
    cr ← optional_str d "created_at";
    up ← optional_str d "updated_at";
    Some {| out_id := i; out_title := t; out_notes := n; out_due_at := due;
            out_completed := c; out_created_at := cr; out_updated_at := up |}
  | _, _, _ => None
  end.

(** [TaskOut] called on an unpacked dict; unpacking [None] is a [TypeError]. *)
Definition TaskOut_ (kwargs : option (gmap string value)) : outcome TaskOut :=
  match kwargs with
  | None => Raise (Exception "TypeError" "argument after ** must be a mapping, not NoneType")
  | Some d =>
    match TaskOut_validate d with
    | Some t => Return t
    | None => Raise (Exception "ValidationError" "TaskOut")
    end
  end.

Definition TASK_COLLECTION : string := "task".

(** Modelled from the spec: [database.create_document], the store adapter's
    [insert(collection, document) -> id] of spec section 2; on creation the
    server assigns the id and the timestamps (spec section 3). *)
Definition create_document (collection_name : string) (data : Task) : M World string :=
  now ← utcnow;
  let data_dict :=
    <["updated_at" := VDatetime now]>
      (<["created_at" := VDatetime now]> (Task_model_dump data)) in
  inserted_id ← insert_one collection_name data_dict;
  mret (str_ObjectId inserted_id).

(** [POST /api/tasks] *)
Definition create_task (payload : TaskCreate) : M World TaskOut :=
  let data := {| task_title := create_title payload;
                 task_notes := create_notes payload;
                 task_due_at := create_due_at payload;
                 task_completed := false |} in
  _id ← create_document TASK_COLLECTION data;
  oid ← lift (ObjectId_ _id);
  doc ← find_one TASK_COLLECTION oid;
  lift (TaskOut_ (serialize_doc_value doc)).

(** The route of [create_task]: the framework validates the body against
    [TaskCreate] before it calls the handler. *)
Definition post_tasks (body : TaskCreate) : M World TaskOut :=
  if TaskCreate_valid body then create_task body
  else raise (HTTPException 422 "Unprocessable Entity").

(** [try: oid = ObjectId(task_id)  except Exception: raise HTTPException(400, ...)] *)
Definition parse_task_id (task_id : string) : M World ObjectId :=
  try_except (lift (ObjectId_ task_id))
    (λ _, raise (HTTPException 400 "Invalid task id")).

(** [PATCH /api/tasks/{task_id}/toggle] *)
Definition toggle_task (task_id : string) : M World TaskOut :=
  oid ← parse_task_id task_id;
  doc ← find_one TASK_COLLECTION oid;
  match doc with
  | Some d =>
    if falsy_doc doc then raise (HTTPException 404 "Task not found")
    else
      let new_completed := negb (truthy (dict_get d "completed" (VBool false))) in
      now ← utcnow;
      _ ← update_one TASK_COLLECTION oid
            {[ "completed" := VBool new_completed; "updated_at" := VDatetime now ]};
      updated ← find_one TASK_COLLECTION oid;
      lift (TaskOut_ (serialize_doc_value updated))
  | None => raise (HTTPException 404 "Task not found")
  end.

(** [{k: v for k, v in payload.model_dump().items() if v is not None}] *)
Definition update_fields (payload : TaskUpdate) : gmap string value :=
  filter (λ kv, is_None kv.2 = false) (TaskUpdate_model_dump payload).

(** [PUT /api/tasks/{task_id}] *)
Definition update_task (task_id : string) (payload : TaskUpdate) : M World TaskOut :=
  oid ← parse_task_id task_id;
  let update_data := update_fields payload in
  if bool_decide (update_data = ∅) then raise (HTTPException 400 "No fields to update")
  else
    now ← utcnow;
    let update_data := <["updated_at" := VDatetime now]> update_data in
    matched_count ← update_one TASK_COLLECTION oid update_data;
    if (matched_count =? 0)%nat then raise (HTTPException 404 "Task not found")
    else
      updated ← find_one TASK_COLLECTION oid;
      lift (TaskOut_ (serialize_doc_value updated)).

(** [DELETE /api/tasks/{task_id}]; [true] stands for [{"success": True}]. *)
Definition delete_task (task_id : string) : M World bool :=
  oid ← parse_task_id task_id;
  deleted_count ← delete_one TASK_COLLECTION oid;
  if (deleted_count =? 0)%nat then raise (HTTPException 404 "Task not found")
  else mret true.

End Handlers.

(** ** The diagnostics endpoint *)

Section Diagnostics.
Context {L : Library}.

Definition set_database (v : string) (r : Diagnostics) : Diagnostics :=
  {| backend := backend r; database := v; database_url := database_url r;
     database_name := database_name r; connection_status := connection_status r;
     collections := collections r |}.

Definition set_database_url (v : option string) (r : Diagnostics) : Diagnostics :=
  {| backend := backend r; database := database r; database_url := v;
     database_name := database_name r; connection_status := connection_status r;
     collections := collections r |}.

Definition set_database_name (v : option string) (r : Diagnostics) : Diagnostics :=
  {| backend := backend r; database := database r; database_url := database_url r;
     database_name := v; connection_status := connection_status r;
     collections := collections r |}.

Definition set_connection_status (v : string) (r : Diagnostics) : Diagnostics :=
  {| backend := backend r; database := database r; database_url := database_url r;
     database_name := database_name r; connection_status := v;
     collections := collections r |}.

Definition set_collection_list (v : list string) (r : Diagnostics) : Diagnostics :=
  {| backend := backend r; database := database r; database_url := database_url r;
     database_name := database_name r; connection_status := connection_status r;
     collections := v |}.

(** [response[k] = v]: the handler's local dict is updated in place. *)
Definition assign (f : Diagnostics → Diagnostics) : M (Diagnostics * World) unit :=
  local_ (modify f).

(** [hasattr(db, 'name')] *)
Definition hasattr_name {S} (d : Database) : M S bool :=
  match db_name d with
  | Attr _ => mret true
  | NoAttr => mret false
  | AttrRaises e => raise e
  end.

(** [db.name] *)
Definition getattr_name {S} (d : Database) : M S string :=
  match db_name d with
  | Attr v => mret v
  | NoAttr => raise (Exception "AttributeError" "name")
  | AttrRaises e => raise e
  end.

(** [s[:n]] *)
Definition str_take (n : nat) (s : string) : string := substring 0 n s.

(** Truthiness of what [os.getenv] returns. *)
Definition env_set (v : option string) : bool :=
  match v with
  | Some s => negb (String.eqb s "")
  | None => false
  end.

Definition initial_response : Diagnostics :=
  {| backend := "✅ Running";
     database := "❌ Not Available";
     database_url := None;
     database_name := None;
     connection_status := "Not Connected";
     collections := [] |}.

(** The statements of [test_database] after [response = {...}], on the local
    [response] and the globals. *)
Definition test_database_body : M (Diagnostics * World) unit :=
  try_except
    (handle ← global (gets db);
     match handle with
     | Some d =>                                         (* db is not None *)
       assign (set_database "✅ Available");;
       assign (set_database_url (Some "✅ Configured"));;
       has ← hasattr_name d;
       name ← (if has : bool then getattr_name d else mret "✅ Connected");
       assign (set_database_name (Some name));;
       assign (set_connection_status "Connected");;
       try_except
         (names ← global list_collection_names;
          assign (set_collection_list (take 10 names));;
          assign (set_database "✅ Connected & Working"))
         (λ e, assign (set_database
                 ("⚠️  Connected but Error: " +:+ str_take 50 (str_exn e))))
     | None =>
       assign (set_database "⚠️  Available but not initialized")
     end)
    (λ e, assign (set_database ("❌ Error: " +:+ str_take 50 (str_exn e))));;
  url ← global (getenv "DATABASE_URL");
  assign (set_database_url (Some (if env_set url then "✅ Set" else "❌ Not Set")));;
  name ← global (getenv "DATABASE_NAME");
  assign (set_database_name (Some (if env_set name then "✅ Set" else "❌ Not Set"))).

(** [GET /test] *)
Definition test_database : M World Diagnostics := λ w,
  match test_database_body (initial_response, w) with
  | (Return _, (response, w')) => (Return response, w')
  | (Raise e, (_, w')) => (Raise e, w')
  end.

End Diagnostics.

(** ** A concrete library, to run the model on

    Identifiers are numbers written in hexadecimal; a timestamp is a naive
    calendar time at whole seconds, and [isoformat] prints
    [YYYY-MM-DDTHH:MM:SS]. *)
Definition hex_of_N (n : N) : string :=
  NilZero.string_of_uint (N.to_hex_uint n).

Definition N_of_hex (s : string) : option N :=
  N.of_hex_uint <$> NilZero.uint_of_string s.

Record civil_time := {
  year : nat; month : nat; day : nat;
  hour : nat; minute : nat; second : nat;
}.

#[export] Instance civil_time_eq_dec : EqDecision civil_time.
Proof. solve_decision. Defined.

Fixpoint zeros (n : nat) : string :=
  match n with
  | O => ""
  | S n => String "0" (zeros n)
  end.

(** [n] in decimal, padded with zeros to [width] digits. *)
Definition zero_padded (width n : nat) : string :=
  let s := pretty n in zeros (width - String.length s) +:+ s.

Definition civil_isoformat (t : civil_time) : string :=
  zero_padded 4 (year t) +:+ "-" +:+ zero_padded 2 (month t) +:+ "-"
  +:+ zero_padded 2 (day t) +:+ "T" +:+ zero_padded 2 (hour t) +:+ ":"
  +:+ zero_padded 2 (minute t) +:+ ":" +:+ zero_padded 2 (second t).

Lemma N_of_hex_of_N (n : N) : N_of_hex (hex_of_N n) = Some n.
Proof.
  unfold N_of_hex, hex_of_N.
  rewrite NilZero.usu.
  - simpl. f_equal. apply HexadecimalN.Unsigned.of_to.
  - destruct n as [|p]; [discriminate|].
    apply HexadecimalPos.Unsigned.to_uint_nonnil.
Qed.

#[export] Instance hex_library : Library := {|
  ObjectId := N;
  ObjectId_of_str := N_of_hex;
  str_ObjectId := hex_of_N;
  ObjectId_of_str_str := N_of_hex_of_N;
  ObjectId_of_str_empty := eq_refl;
  datetime := civil_time;
  isoformat := civil_isoformat;
|}.

(** ** Vocabulary of the statements *)

Section Vocabulary.
Context {L : Library}.

(** The keys [serialize_doc] rewrites for the identifier: [id] and [_id],
    when [_id] holds an [ObjectId]. *)
Definition identifier_key (d : gmap string value) (k : string) : Prop :=
  (∃ o, d !! "_id" = Some (VObjectId o)) ∧ (k = "id" ∨ k = "_id").

(** What a handler hands to [TaskOut] for the stored fields [doc] of [oid]. *)
Definition response_of (oid : ObjectId) (doc : gmap string value) : outcome TaskOut :=
  TaskOut_ (serialize_doc_value (Some (<["_id" := VObjectId oid]> doc))).

(** The world after the driver calls [cs] (latest first) left database [d]. *)
Definition after (cs : list call) (d : Database) (w : World) : World :=
  {| db := Some d; clock := clock w; environ := environ w; calls := cs ++ calls w |}.

(** The document [create_document] inserts for [payload] at time [now]. *)
Definition new_document (payload : TaskCreate) (now : datetime) : gmap string value :=
  <["updated_at" := VDatetime now]>
    (<["created_at" := VDatetime now]>
       (Task_model_dump {| task_title := create_title payload;
                           task_notes := create_notes payload;
                           task_due_at := create_due_at payload;
                           task_completed := false |})).

(** The identifier the driver generates next. *)
Definition next_id (d : Database) : ObjectId :=
  fresh (db_issued d ∪ dom (collection d TASK_COLLECTION)).

(** A field of the request body, [field], against the stored documents
    before and after: applied when it carries a value, kept when it is
    absent. *)
Definition applied_or_kept {A} (field : option A) (inj : A → value) (k : string)
    (doc doc' : gmap string value) : Prop :=
  match field with
  | Some x => doc' !! k = Some (inj x)
  | None => doc' !! k = doc !! k
  end.

(** The serialization of the stored fields [doc] of document [oid], as the
    handlers compute it from what [find_one] returns. *)
Definition serialized (oid : ObjectId) (doc : gmap string value) : gmap string value :=
  isoformat_value <$> rewrite_id (<["_id" := VObjectId oid]> doc).

End Vocabulary.

(** ** The model at work: a small world *)

Definition example_time : civil_time :=
  {| year := 2024; month := 3; day := 7; hour := 9; minute := 5; second := 0 |}.

Definition example_later : civil_time :=
  {| year := 2024; month := 3; day := 8; hour := 18; minute := 30; second := 12 |}.

(** The stored fields of a task created at [example_time]. *)
Definition example_task : gmap string value :=
  {[ "title" := VStr "Buy milk"; "notes" := VNone; "due_at" := VNone;
     "completed" := VBool false;
     "created_at" := VDatetime example_time;
     "updated_at" := VDatetime example_time ]}.

(** A working database that holds that task under the identifier [0]. *)
Definition example_db : Database :=
  {| db_name := Attr "todo"; db_fault := None;
     db_collection_names := ["task"];
     db_collections := {[ "task" := {[ 0%N := example_task ]} ]};
     db_issued := {[ 0%N ]} |}.

Definition example_world : World :=
  {| db := Some example_db; clock := example_later; environ := ∅; calls := [] |}.

(** [{"notes": "", "completed": false}] *)
Definition example_update : TaskUpdate :=
  {| update_title := None; update_notes := Some ""; update_due_at := None;
     update_completed := Some false |}.

(** [{}] *)
Definition empty_update : TaskUpdate :=
  {| update_title := None; update_notes := None; update_due_at := None;
     update_completed := None |}.

(** [{"title": "Call mum"}] *)
Definition example_create : TaskCreate :=
  {| create_title := "Call mum"; create_notes := None; create_due_at := None |}.

(** A document whose [_id] is an identifier and which also has a field [id]. *)
Definition collision_doc : gmap string value :=
  {[ "_id" := VObjectId 26%N; "id" := VInt 5 ]}.

Definition collision_heap : gmap loc (gmap string value) :=
  {[ 1%positive := collision_doc ]}.

(** A world without a database, and one whose server does not answer. *)
Definition no_db_world : World :=
  {| db := None; clock := example_later; environ := ∅; calls := [] |}.

Definition faulty_db : Database :=
  {| db_name := Attr "todo";
     db_fault := Some ("ServerSelectionTimeoutError",
                       "localhost:27017: [Errno 111] Connection refused, Timeout: 30s");
     db_collection_names := ["task"];
     db_collections := {[ "task" := {[ 0%N := example_task ]} ]};
     db_issued := {[ 0%N ]} |}.

Definition faulty_world : World :=
  {| db := Some faulty_db; clock := example_later;
     environ := {[ "DATABASE_URL" := "mongodb://localhost:27017" ]}; calls := [] |}.

(** * Properties *)

(** ** The serializer *)

Section SerializerProperties.
Context {L : Library}.

Lemma deref_insert_eq (h : gmap loc (gmap string value)) l d :
  deref (<[l := d]> h) l = d.
Proof. unfold deref. by rewrite lookup_insert_eq. Qed.

(** The loop over the items turns the dict at [l] into its image under
    [isoformat_value], and touches no other object. *)
Lemma isoformat_loop (h : gmap loc (gmap string value)) l (d : gmap string value) :
  map_fold (isoformat_item l) (<[l := d]> h) d = <[l := isoformat_value <$> d]> h.
Proof.
  assert (∀ m : gmap string value, m ⊆ d →
            map_fold (isoformat_item l) (<[l := d]> h) m
            = <[l := (isoformat_value <$> m) ∪ d]> h) as Hloop.
  { intros m.
    apply (map_fold_weak_ind
             (λ r (m : gmap string value),
                m ⊆ d → r = <[l := (isoformat_value <$> m) ∪ d]> h)).
    - intros _. by rewrite fmap_empty, (left_id_L ∅ (∪)).
    - intros k v m' r Hk IH Hsub.
      assert (d !! k = Some v) as Hd.
      { eapply lookup_weaken; [|exact Hsub]. apply lookup_insert_eq. }
      assert (m' ⊆ d) as Hsub'.
      { etrans; [|exact Hsub]. by apply insert_subseteq. }
      rewrite (IH Hsub'), fmap_insert. clear IH.
      assert (∀ v', <[l := <[k := v']> ((isoformat_value <$> m') ∪ d)]> h
                    = <[l := <[k := v']> (isoformat_value <$> m') ∪ d]> h) as Hins.
      { intros v'. by rewrite insert_union_l. }
      destruct v; simpl;
        try (rewrite <- Hins; f_equal; symmetry; apply insert_id;
             rewrite lookup_union_r; [done | by rewrite lookup_fmap, Hk]).
      unfold setitem. rewrite deref_insert_eq, insert_insert_eq. apply Hins. }
  rewrite Hloop by done. f_equal.
  apply map_eq; intros k. rewrite lookup_union, !lookup_fmap.
  by destruct (d !! k).
Qed.

(** On a non-empty dict, [serialize_doc] allocates one new object, holding
    what [serialize_doc_value] computes, and returns it. *)
Lemma serialize_doc_deref (h : gmap loc (gmap string value)) l d :
  h !! l = Some d → d ≠ ∅ →
  serialize_doc (Some l) h
  = (Some (fresh (dom h)), <[fresh (dom h) := isoformat_value <$> rewrite_id d]> h).
Proof.
  intros Hl Hd. unfold serialize_doc, falsy_doc, dict_copy.
  assert (deref h l = d) as -> by (unfold deref; by rewrite Hl).
  rewrite bool_decide_eq_false_2 by done.
  rewrite deref_insert_eq.
  set (l' := fresh (dom h)).
  assert (match d !! "_id" with
          | Some (VObjectId o) =>
              delitem l' "_id" (setitem l' "id" (VStr (str_ObjectId o)) (<[l' := d]> h))
          | _ => <[l' := d]> h
          end = <[l' := rewrite_id d]> h) as ->.
  { unfold rewrite_id. destruct (d !! "_id") as [[]|]; try done.
    unfold delitem, setitem.
    by rewrite !deref_insert_eq, !insert_insert_eq. }
  by rewrite deref_insert_eq, isoformat_loop.
Qed.

Lemma fresh_loc_unused (h : gmap loc (gmap string value)) : h !! fresh (dom h) = None.
Proof. apply not_elem_of_dom, is_fresh. Qed.

End SerializerProperties.

Section SerializerClaims.
Context {L : Library}.

Lemma rewrite_id_lookup (d : gmap string value) k :
  ¬ identifier_key d k → rewrite_id d !! k = d !! k.
Proof.
  intros Hk. unfold rewrite_id.
  destruct (d !! "_id") as [v|] eqn:Hid; [|done].
  destruct v; try done.
  assert (k ≠ "id" ∧ k ≠ "_id") as [??].
  { split; intros ->; apply Hk; split; eauto. }
  by rewrite lookup_delete_ne, lookup_insert_ne.
Qed.

(** C3, as amended. For every heap and argument, [serialize_doc] leaves every
    object of the heap as it was (it never mutates its input); on [None] and
    on an empty dict it returns the argument itself and allocates nothing; on
    a non-empty dict it returns a new object in which an [ObjectId] under
    [_id] is written as a string under [id] (replacing a field [id] of the
    input) and [_id] is removed, every other datetime-valued field holds its
    [isoformat] string, every remaining field holds its input value, and no
    other key appears. *)
Theorem serialize_doc_spec (h : gmap loc (gmap string value)) (doc : option loc) :
  ∃ res h',
    serialize_doc doc h = (res, h') ∧
    (∀ l, is_Some (h !! l) → h' !! l = h !! l) ∧
    match doc with
    | None => res = None ∧ h' = h
    | Some l =>
      let d := deref h l in
      if decide (d = ∅) then res = Some l ∧ h' = h
      else ∃ l', res = Some l' ∧ h !! l' = None ∧
        let d' := deref h' l' in
        (∀ o, d !! "_id" = Some (VObjectId o) →
              d' !! "id" = Some (VStr (str_ObjectId o)) ∧ d' !! "_id" = None) ∧
        (∀ k t, ¬ identifier_key d k → d !! k = Some (VDatetime t) →
              d' !! k = Some (VStr (isoformat t))) ∧
        (∀ k v, ¬ identifier_key d k → d !! k = Some v → (∀ t, v ≠ VDatetime t) →
              d' !! k = Some v) ∧
        (∀ k, ¬ identifier_key d k → d !! k = None → d' !! k = None)
    end.
Proof.
  destruct doc as [l|]; [|by exists None, h].
  cbv zeta. destruct (decide (deref h l = ∅)) as [He|Hne].
  { exists (Some l), h. unfold serialize_doc, falsy_doc.
    by rewrite bool_decide_eq_true_2. }
  destruct (h !! l) as [d|] eqn:Hl; [|by unfold deref in Hne; rewrite Hl in Hne].
  assert (deref h l = d) as Hd by (unfold deref; by rewrite Hl).
  rewrite Hd in Hne |- *.
  pose proof (fresh_loc_unused h) as Hfresh.
  eexists _, _. split; [by apply serialize_doc_deref|]. split.
  { intros l0 [d0 Hl0]. apply lookup_insert_ne. intros <-. congruence. }
  eexists. split; [done|]. split; [done|].
  rewrite deref_insert_eq. split; [|split; [|split]].
  - intros o Ho. rewrite !lookup_fmap. unfold rewrite_id. rewrite Ho.
    by rewrite lookup_delete_eq, lookup_delete_ne, lookup_insert_eq.
  - intros k t Hk Hkt. by rewrite lookup_fmap, rewrite_id_lookup, Hkt.
  - intros k v Hk Hkv Hv. rewrite lookup_fmap, rewrite_id_lookup, Hkv by done.
    destruct v; try done. by destruct (Hv t).
  - intros k Hk Hkn. by rewrite lookup_fmap, rewrite_id_lookup, Hkn.
Qed.

End SerializerClaims.

(** C3, counterexample. The input field [id] is neither the identifier key
    [_id] nor datetime-valued, and it is not passed through: the output holds
    the identifier string under [id]. *)
Lemma serialize_doc_id_collision :
  deref collision_heap 1%positive !! "id" = Some (VInt 5) ∧
  (serialize_doc (Some 1%positive) collision_heap).1 = Some 2%positive ∧
  deref (serialize_doc (Some 1%positive) collision_heap).2 2%positive !! "id"
  = Some (VStr "1a").
Proof. by vm_compute. Qed.

(** ** The handlers: how they run *)

Section HandlerRuns.
Context {L : Library}.

Lemma bind_run {S A B} (m : M S A) (k : A → M S B) (s : S) :
  (m ≫= k) s = match m s with
               | (Return a, s') => k a s'
               | (Raise e, s') => (Raise e, s')
               end.
Proof. reflexivity. Qed.

Lemma parse_task_id_run task_id w :
  parse_task_id task_id w
  = match ObjectId_of_str task_id with
    | Some oid => (Return oid, w)
    | None => (Raise (HTTPException 400 "Invalid task id"), w)
    end.
Proof.
  unfold parse_task_id, try_except, lift, ObjectId_.
  by destruct (ObjectId_of_str task_id).
Qed.

Lemma driver_call_run {A} c (f : Database → A * Database) w d :
  db w = Some d → db_fault d = None →
  driver_call c f w = (Return (f d).1, set_db (f d).2 (log_call c w)).
Proof.
  intros Hd Hf. unfold driver_call. rewrite Hd, Hf. by destruct (f d).
Qed.

Lemma driver_call_no_db {A} c (f : Database → A * Database) w :
  db w = None →
  driver_call c f w
  = (Raise (Exception "TypeError" "'NoneType' object is not subscriptable"), w).
Proof. intros Hd. unfold driver_call. by rewrite Hd. Qed.

Lemma driver_call_fault {A} c (f : Database → A * Database) w d cls msg :
  db w = Some d → db_fault d = Some (cls, msg) →
  driver_call c f w = (Raise (Exception cls msg), log_call c w).
Proof. intros Hd Hf. unfold driver_call. by rewrite Hd, Hf. Qed.

Lemma collection_set_collection c docs d :
  collection (set_collection c docs d) c = docs.
Proof. unfold collection, set_collection. simpl. by rewrite lookup_insert_eq. Qed.

Lemma collection_set_collection_ne c c' docs d :
  c ≠ c' → collection (set_collection c docs d) c' = collection d c'.
Proof.
  intros Hc. unfold collection, set_collection. simpl. by rewrite lookup_insert_ne.
Qed.

(** A found document is never falsy: it carries its [_id]. *)
Lemma found_not_falsy oid (doc : gmap string value) :
  falsy_doc (Some (<["_id" := VObjectId oid]> doc)) = false.
Proof. apply bool_decide_eq_false_2, insert_non_empty. Qed.

Lemma stored_after cs d w c : stored (after cs d w) c = collection d c.
Proof. reflexivity. Qed.

(** [update_task] on a well-formed id, a non-empty update and a working
    database. *)
Lemma update_task_run task_id payload w d oid :
  db w = Some d → db_fault d = None →
  ObjectId_of_str task_id = Some oid →
  update_fields payload ≠ ∅ →
  let fields := <["updated_at" := VDatetime (clock w)]> (update_fields payload) in
  update_task task_id payload w
  = match collection d TASK_COLLECTION !! oid with
    | Some doc =>
      let docs := <[oid := fields ∪ doc]> (collection d TASK_COLLECTION) in
      (response_of oid (fields ∪ doc),
       after [FindOne TASK_COLLECTION oid; UpdateOne TASK_COLLECTION oid fields]
             (set_collection TASK_COLLECTION docs d) w)
    | None =>
      (Raise (HTTPException 404 "Task not found"),
       after [UpdateOne TASK_COLLECTION oid fields] d w)
    end.
Proof.
  intros Hd Hf Hoid Hne fields. unfold update_task.
  rewrite bind_run, parse_task_id_run, Hoid.
  rewrite bool_decide_eq_false_2 by done.
  rewrite bind_run. unfold utcnow, gets. fold fields.
  rewrite bind_run. unfold update_one.
  rewrite (driver_call_run _ _ w d) by done.
  destruct (collection d TASK_COLLECTION !! oid) as [doc|] eqn:Hdoc; simpl.
  - rewrite bind_run. unfold find_one.
    erewrite driver_call_run; [|reflexivity|exact Hf].
    simpl. rewrite collection_set_collection, lookup_insert_eq. reflexivity.
  - reflexivity.
Qed.

(** [toggle_task] on a well-formed id and a working database. *)
Lemma toggle_task_run task_id w d oid :
  db w = Some d → db_fault d = None →
  ObjectId_of_str task_id = Some oid →
  toggle_task task_id w
  = match collection d TASK_COLLECTION !! oid with
    | Some doc =>
      let new_completed := negb (truthy (dict_get doc "completed" (VBool false))) in
      let fields : gmap string value :=
        {[ "completed" := VBool new_completed; "updated_at" := VDatetime (clock w) ]} in
      let docs := <[oid := fields ∪ doc]> (collection d TASK_COLLECTION) in
      (response_of oid (fields ∪ doc),
       after [FindOne TASK_COLLECTION oid; UpdateOne TASK_COLLECTION oid fields;
              FindOne TASK_COLLECTION oid]
             (set_collection TASK_COLLECTION docs d) w)
    | None =>
      (Raise (HTTPException 404 "Task not found"),
       after [FindOne TASK_COLLECTION oid] d w)
    end.
Proof.
  intros Hd Hf Hoid. unfold toggle_task.
  rewrite bind_run, parse_task_id_run, Hoid.
  rewrite bind_run. unfold find_one at 1.
  rewrite (driver_call_run _ _ w d) by done. simpl.
  destruct (collection d TASK_COLLECTION !! oid) as [doc|] eqn:Hdoc; simpl;
    [|reflexivity].
  rewrite bool_decide_eq_false_2 by apply insert_non_empty.
  rewrite bind_run. unfold utcnow, gets.
  assert (dict_get (<["_id" := VObjectId oid]> doc) "completed" (VBool false)
          = dict_get doc "completed" (VBool false)) as ->.
  { unfold dict_get. by rewrite lookup_insert_ne. }
  rewrite bind_run. unfold update_one.
  erewrite driver_call_run; [|reflexivity|exact Hf].
  simpl. rewrite Hdoc. simpl.
  rewrite bind_run. unfold find_one.
  erewrite driver_call_run; [|reflexivity|exact Hf].
  simpl. rewrite collection_set_collection, lookup_insert_eq. reflexivity.
Qed.

(** [delete_task] on a well-formed id and a working database. *)
Lemma delete_task_run task_id w d oid :
  db w = Some d → db_fault d = None →
  ObjectId_of_str task_id = Some oid →
  delete_task task_id w
  = match collection d TASK_COLLECTION !! oid with
    | Some _ =>
      (Return true,
       after [DeleteOne TASK_COLLECTION oid]
             (set_collection TASK_COLLECTION
                (delete oid (collection d TASK_COLLECTION)) d) w)
    | None =>
      (Raise (HTTPException 404 "Task not found"),
       after [DeleteOne TASK_COLLECTION oid] d w)
    end.
Proof.
  intros Hd Hf Hoid. unfold delete_task.
  rewrite bind_run, parse_task_id_run, Hoid.
  rewrite bind_run. unfold delete_one.
  rewrite (driver_call_run _ _ w d) by done.
  by destruct (collection d TASK_COLLECTION !! oid).
Qed.

(** [create_task] on a working database. *)
Lemma create_task_run payload w d :
  db w = Some d → db_fault d = None →
  let doc := new_document payload (clock w) in
  let oid := next_id d in
  create_task payload w
  = (response_of oid doc,
     after [FindOne TASK_COLLECTION oid; InsertOne TASK_COLLECTION doc]
           (set_issued (union {[oid]})
              (set_collection TASK_COLLECTION
                 (<[oid := doc]> (collection d TASK_COLLECTION)) d)) w).
Proof.
  intros Hd Hf doc oid. unfold create_task, create_document.
  rewrite !bind_run. unfold utcnow, gets.
  rewrite bind_run. unfold insert_one.
  rewrite (driver_call_run _ _ w d) by done. simpl.
  unfold ObjectId_. rewrite ObjectId_of_str_str. unfold lift. cbv beta iota.
  rewrite bind_run.
  rewrite bind_run. unfold find_one.
  erewrite driver_call_run; [|reflexivity|exact Hf].
  simpl.
  change (collection (set_issued ?f ?d') ?c) with (collection d' c).
  rewrite collection_set_collection, lookup_insert_eq. reflexivity.
Qed.

End HandlerRuns.

(** ** Partial update *)

Section UpdateProperties.
Context {L : Library}.

Lemma model_dump_lookup (p : TaskUpdate) k :
  TaskUpdate_model_dump p !! k
  = if decide (k = "title") then Some (optional VStr (update_title p))
    else if decide (k = "notes") then Some (optional VStr (update_notes p))
    else if decide (k = "due_at") then Some (optional VDatetime (update_due_at p))
    else if decide (k = "completed") then Some (optional VBool (update_completed p))
    else None.
Proof.
  unfold TaskUpdate_model_dump.
  repeat (case_decide;
          [subst k;
           rewrite ?lookup_insert_eq, ?lookup_insert_ne, ?lookup_singleton_eq
             by discriminate; reflexivity|]).
  rewrite !lookup_insert_ne by congruence. apply lookup_singleton_ne. congruence.
Qed.

Lemma update_fields_lookup (p : TaskUpdate) k :
  update_fields p !! k
  = if decide (k = "title") then VStr <$> update_title p
    else if decide (k = "notes") then VStr <$> update_notes p
    else if decide (k = "due_at") then VDatetime <$> update_due_at p
    else if decide (k = "completed") then VBool <$> update_completed p
    else None.
Proof.
  unfold update_fields. rewrite map_lookup_filter, model_dump_lookup.
  destruct p as [t n du c]; cbn [update_title update_notes update_due_at update_completed].
  repeat (case_decide; [destruct t, n, du, c; reflexivity|]).
  reflexivity.
Qed.
Lemma update_fields_title (p : TaskUpdate) :
  update_fields p !! "title" = VStr <$> update_title p.
Proof. rewrite update_fields_lookup. by rewrite decide_True by reflexivity. Qed.

Lemma update_fields_notes (p : TaskUpdate) :
  update_fields p !! "notes" = VStr <$> update_notes p.
Proof.
  rewrite update_fields_lookup.
  rewrite decide_False by discriminate. by rewrite decide_True by reflexivity.
Qed.

Lemma update_fields_due_at (p : TaskUpdate) :
  update_fields p !! "due_at" = VDatetime <$> update_due_at p.
Proof.
  rewrite update_fields_lookup.
  rewrite !decide_False by discriminate. by rewrite decide_True by reflexivity.
Qed.

Lemma update_fields_completed (p : TaskUpdate) :
  update_fields p !! "completed" = VBool <$> update_completed p.
Proof.
  rewrite update_fields_lookup.
  rewrite !decide_False by discriminate. by rewrite decide_True by reflexivity.
Qed.

Lemma update_fields_other (p : TaskUpdate) k :
  k ≠ "title" → k ≠ "notes" → k ≠ "due_at" → k ≠ "completed" →
  update_fields p !! k = None.
Proof.
  intros. rewrite update_fields_lookup. by rewrite !decide_False by assumption.
Qed.

Lemma update_fields_empty (p : TaskUpdate) :
  update_fields p = ∅ ↔
  update_title p = None ∧ update_notes p = None ∧
  update_due_at p = None ∧ update_completed p = None.
Proof.
  split.
  - intros He.
    assert (∀ k, update_fields p !! k = None) as Hk.
    { intros k. rewrite He. apply lookup_empty. }
    clear He. repeat split.
    + eapply fmap_None. rewrite <- update_fields_title. apply Hk.
    + eapply fmap_None. rewrite <- update_fields_notes. apply Hk.
    + eapply fmap_None. rewrite <- update_fields_due_at. apply Hk.
    + eapply fmap_None. rewrite <- update_fields_completed. apply Hk.
  - intros (Ht & Hn & Hd & Hc). apply map_eq; intros k.
    rewrite update_fields_lookup, lookup_empty, Ht, Hn, Hd, Hc.
    repeat case_decide; reflexivity.
Qed.

(** [update_task] on a well-formed id and an empty update: nothing runs
    after the check. *)
Lemma update_task_run_empty task_id payload w oid :
  ObjectId_of_str task_id = Some oid →
  update_fields payload = ∅ →
  update_task task_id payload w = (Raise (HTTPException 400 "No fields to update"), w).
Proof.
  intros Hoid He. unfold update_task.
  rewrite bind_run, parse_task_id_run, Hoid.
  rewrite bool_decide_eq_true_2 by exact He. reflexivity.
Qed.

(** C2. An update with a well-formed identifier and an empty update set
    fails with 400 "No fields to update", and the world is exactly as before:
    no driver call was made and every stored document is unchanged. *)
Theorem update_task_empty_rejected task_id payload w oid :
  ObjectId_of_str task_id = Some oid →
  update_fields payload = ∅ →
  update_task task_id payload w
  = (Raise (HTTPException 400 "No fields to update"), w).
Proof. apply update_task_run_empty. Qed.

(** C1. On a working database, for an update request whose identifier names
    the stored document [doc]: afterwards the document is still stored, each
    of the body fields title, notes, due_at and completed holds the request's
    value where the request carries one and its old value where the request
    leaves it out, every key other than these and [updated_at] is as before,
    and no other document changed. *)
Theorem update_task_applies_fields task_id payload w d oid doc :
  db w = Some d → db_fault d = None →
  ObjectId_of_str task_id = Some oid →
  stored w TASK_COLLECTION !! oid = Some doc →
  ∃ doc',
    stored (update_task task_id payload w).2 TASK_COLLECTION !! oid = Some doc' ∧
    applied_or_kept (update_title payload) VStr "title" doc doc' ∧
    applied_or_kept (update_notes payload) VStr "notes" doc doc' ∧
    applied_or_kept (update_due_at payload) VDatetime "due_at" doc doc' ∧
    applied_or_kept (update_completed payload) VBool "completed" doc doc' ∧
    (∀ k, k ∉ ["title"; "notes"; "due_at"; "completed"; "updated_at"] →
          doc' !! k = doc !! k) ∧
    (∀ oid', oid' ≠ oid →
          stored (update_task task_id payload w).2 TASK_COLLECTION !! oid'
          = stored w TASK_COLLECTION !! oid').
Proof.
  intros Hd Hf Hoid Hdoc.
  assert (collection d TASK_COLLECTION !! oid = Some doc) as Hdoc'.
  { unfold stored in Hdoc. rewrite Hd in Hdoc. exact Hdoc. }
  destruct (decide (update_fields payload = ∅)) as [He|Hne].
  - rewrite (update_task_run_empty _ _ _ oid Hoid He). cbn [snd].
    exists doc. apply update_fields_empty in He as (Ht & Hn & Hdu & Hc).
    rewrite Ht, Hn, Hdu, Hc. unfold applied_or_kept.
    split; [exact Hdoc|]. repeat split.
  - rewrite (update_task_run _ _ _ d oid Hd Hf Hoid Hne). cbv zeta. rewrite Hdoc'.
    cbn [snd]. rewrite stored_after, collection_set_collection.
    eexists. split; [apply lookup_insert_eq|].
    assert (∀ k, k ≠ "updated_at" →
              (<["updated_at" := VDatetime (clock w)]> (update_fields payload) ∪ doc) !! k
              = from_option Some (doc !! k) (update_fields payload !! k)) as Hk.
    { intros k Hk. rewrite lookup_union, lookup_insert_ne by congruence.
      destruct (update_fields payload !! k), (doc !! k); reflexivity. }
    clear Hne Hdoc Hdoc'. unfold applied_or_kept.
    split; [|split; [|split; [|split; [|split]]]].
    + rewrite Hk, update_fields_title by discriminate.
      destruct (update_title payload); reflexivity.
    + rewrite Hk, update_fields_notes by discriminate.
      destruct (update_notes payload); reflexivity.
    + rewrite Hk, update_fields_due_at by discriminate.
      destruct (update_due_at payload); reflexivity.
    + rewrite Hk, update_fields_completed by discriminate.
      destruct (update_completed payload); reflexivity.
    + intros k Hin.
      rewrite !not_elem_of_cons in Hin. destruct Hin as (?&?&?&?&?&_).
      rewrite Hk, update_fields_other by assumption. reflexivity.
    + intros oid' Hne'. rewrite lookup_insert_ne by congruence.
      unfold stored. rewrite Hd. reflexivity.
Qed.

End UpdateProperties.

(** ** Responses *)

Section ResponseProperties.
Context {L : Library}.

Lemma serialize_found oid (doc : gmap string value) :
  serialize_doc_value (Some (<["_id" := VObjectId oid]> doc)) = Some (serialized oid doc).
Proof.
  unfold serialize_doc_value. rewrite found_not_falsy. reflexivity.
Qed.

Lemma serialized_id oid (doc : gmap string value) :
  serialized oid doc !! "id" = Some (VStr (str_ObjectId oid)).
Proof.
  unfold serialized, rewrite_id. rewrite lookup_insert_eq, lookup_fmap.
  rewrite lookup_delete_ne by discriminate. rewrite lookup_insert_eq. reflexivity.
Qed.

Lemma serialized_lookup oid (doc : gmap string value) k :
  k ≠ "id" → k ≠ "_id" →
  serialized oid doc !! k = isoformat_value <$> doc !! k.
Proof.
  intros Hid H_id. unfold serialized, rewrite_id.
  rewrite lookup_insert_eq, lookup_fmap.
  rewrite lookup_delete_ne, !lookup_insert_ne by congruence. reflexivity.
Qed.

Lemma response_of_validate oid doc :
  response_of oid doc
  = match TaskOut_validate (serialized oid doc) with
    | Some t => Return t
    | None => Raise (Exception "ValidationError" "TaskOut")
    end.
Proof. unfold response_of. rewrite serialize_found. reflexivity. Qed.

(** What a validated [TaskOut] says about the dict it was built from. *)
Lemma TaskOut_validate_Some (d : gmap string value) t :
  TaskOut_validate d = Some t →
  d !! "id" = Some (VStr (out_id t)) ∧
  d !! "title" = Some (VStr (out_title t)) ∧
  d !! "completed" = Some (VBool (out_completed t)) ∧
  optional_str d "notes" = Some (out_notes t) ∧
  optional_str d "due_at" = Some (out_due_at t) ∧
  optional_str d "created_at" = Some (out_created_at t) ∧
  optional_str d "updated_at" = Some (out_updated_at t).
Proof.
  unfold TaskOut_validate.
  destruct (d !! "id") as [[]|]; try (intros [=]; fail).
  destruct (d !! "title") as [[]|]; try (intros [=]; fail).
  destruct (d !! "completed") as [[]|]; try (intros [=]; fail).
  destruct (optional_str d "notes"); [|intros [=]].
  destruct (optional_str d "due_at"); [|intros [=]].
  destruct (optional_str d "created_at"); [|intros [=]].
  destruct (optional_str d "updated_at"); [|intros [=]].
  simpl. intros [= <-]. simpl. repeat split.
Qed.

Lemma isoformat_value_bool v b : isoformat_value v = VBool b → v = VBool b.
Proof. destruct v; simpl; congruence. Qed.

(** A response reports the [completed] of the stored fields it was built from. *)
Lemma response_of_completed oid doc t :
  response_of oid doc = Return t → doc !! "completed" = Some (VBool (out_completed t)).
Proof.
  rewrite response_of_validate.
  destruct (TaskOut_validate (serialized oid doc)) as [t'|] eqn:Hv; [|intros [=]].
  intros [= ->]. apply TaskOut_validate_Some in Hv as (_ & _ & Hc & _).
  rewrite serialized_lookup in Hc by discriminate.
  destruct (doc !! "completed") as [v|]; [|discriminate Hc].
  simpl in Hc. injection Hc as Hc. apply isoformat_value_bool in Hc. congruence.
Qed.

Lemma response_of_id oid doc t :
  response_of oid doc = Return t → out_id t = str_ObjectId oid.
Proof.
  rewrite response_of_validate.
  destruct (TaskOut_validate (serialized oid doc)) as [t'|] eqn:Hv; [|intros [=]].
  intros [= ->]. apply TaskOut_validate_Some in Hv as (Hi & _).
  rewrite serialized_id in Hi. congruence.
Qed.

End ResponseProperties.

(** ** The task handlers *)

Section HandlerClaims.
Context {L : Library}.

Lemma stored_healthy w d c : db w = Some d → stored w c = collection d c.
Proof. intros Hd. unfold stored. rewrite Hd. reflexivity. Qed.

Lemma str_ObjectId_inj o1 o2 : str_ObjectId o1 = str_ObjectId o2 → o1 = o2.
Proof.
  intros Heq.
  pose proof (ObjectId_of_str_str o1) as H1. rewrite Heq, ObjectId_of_str_str in H1.
  congruence.
Qed.

Lemma str_ObjectId_nonempty o : str_ObjectId o ≠ "".
Proof.
  intros Heq. pose proof (ObjectId_of_str_str o) as H1.
  rewrite Heq, ObjectId_of_str_empty in H1. discriminate H1.
Qed.

Lemma next_id_fresh d :
  (next_id d ∉ db_issued d) ∧ (collection d TASK_COLLECTION !! next_id d = None).
Proof.
  pose proof (is_fresh (db_issued d ∪ dom (collection d TASK_COLLECTION))) as Hfresh.
  fold (next_id d) in Hfresh. rewrite not_elem_of_union in Hfresh.
  destruct Hfresh as [Hi Hc]. split; [exact Hi|]. by apply not_elem_of_dom.
Qed.

Lemma new_document_completed payload now :
  new_document payload now !! "completed" = Some (VBool false).
Proof.
  unfold new_document, Task_model_dump.
  rewrite !lookup_insert_ne by discriminate. apply lookup_singleton_eq.
Qed.

Lemma new_document_title payload now :
  new_document payload now !! "title" = Some (VStr (create_title payload)).
Proof.
  unfold new_document, Task_model_dump.
  rewrite !lookup_insert_ne by discriminate. apply lookup_insert_eq.
Qed.

Lemma new_document_notes payload now :
  new_document payload now !! "notes" = Some (optional VStr (create_notes payload)).
Proof.
  unfold new_document, Task_model_dump.
  rewrite !lookup_insert_ne by discriminate.
  rewrite lookup_insert_eq. reflexivity.
Qed.

Lemma new_document_due_at payload now :
  new_document payload now !! "due_at" = Some (optional VDatetime (create_due_at payload)).
Proof.
  unfold new_document, Task_model_dump.
  rewrite !lookup_insert_ne by discriminate.
  rewrite lookup_insert_eq. reflexivity.
Qed.

Lemma new_document_created_at payload now :
  new_document payload now !! "created_at" = Some (VDatetime now).
Proof.
  unfold new_document. rewrite lookup_insert_ne by discriminate. apply lookup_insert_eq.
Qed.

Lemma new_document_updated_at payload now :
  new_document payload now !! "updated_at" = Some (VDatetime now).
Proof. unfold new_document. apply lookup_insert_eq. Qed.

(** The response built from a newly inserted document. *)
Lemma new_document_response payload now oid :
  response_of oid (new_document payload now)
  = Return {| out_id := str_ObjectId oid;
              out_title := create_title payload;
              out_notes := create_notes payload;
              out_due_at := isoformat <$> create_due_at payload;
              out_completed := false;
              out_created_at := Some (isoformat now);
              out_updated_at := Some (isoformat now) |}.
Proof.
  rewrite response_of_validate. unfold TaskOut_validate, optional_str.
  rewrite serialized_id, !serialized_lookup by discriminate.
  rewrite new_document_title, new_document_completed, new_document_notes,
    new_document_due_at, new_document_created_at, new_document_updated_at.
  destruct (create_notes payload), (create_due_at payload); reflexivity.
Qed.

Lemma response_of_not_http oid doc c detail :
  response_of oid doc ≠ Raise (HTTPException c detail).
Proof.
  rewrite response_of_validate.
  destruct (TaskOut_validate (serialized oid doc)); discriminate.
Qed.

End HandlerClaims.

Section TaskClaims.
Context {L : Library}.

(** The fields a toggle sets, over the stored fields [doc]. *)
Lemma toggle_fields_completed (c : bool) (now : datetime) (doc : gmap string value) :
  (({[ "completed" := VBool c; "updated_at" := VDatetime now ]} : gmap string value)
     ∪ doc) !! "completed" = Some (VBool c).
Proof. apply lookup_union_Some_l. apply lookup_insert_eq. Qed.

Lemma toggle_fields_updated_at (c : bool) (now : datetime) (doc : gmap string value) :
  (({[ "completed" := VBool c; "updated_at" := VDatetime now ]} : gmap string value)
     ∪ doc) !! "updated_at" = Some (VDatetime now).
Proof.
  apply lookup_union_Some_l. rewrite lookup_insert_ne by discriminate.
  apply lookup_singleton_eq.
Qed.

Lemma toggle_fields_other (c : bool) (now : datetime) (doc : gmap string value) k :
  k ≠ "completed" → k ≠ "updated_at" →
  (({[ "completed" := VBool c; "updated_at" := VDatetime now ]} : gmap string value)
     ∪ doc) !! k = doc !! k.
Proof.
  intros Hc Hu. apply lookup_union_r.
  rewrite lookup_insert_ne by congruence. apply lookup_singleton_ne. congruence.
Qed.

(** After a toggle of a stored task the database still works and holds the
    task with the toggled fields laid over its old ones. *)
Lemma toggle_task_stored task_id w d oid doc :
  db w = Some d → db_fault d = None →
  ObjectId_of_str task_id = Some oid →
  collection d TASK_COLLECTION !! oid = Some doc →
  ∃ d', db (toggle_task task_id w).2 = Some d' ∧ db_fault d' = None ∧
        collection d' TASK_COLLECTION !! oid
        = Some (({[ "completed" :=
                      VBool (negb (truthy (dict_get doc "completed" (VBool false))));
                    "updated_at" := VDatetime (clock w) ]} : gmap string value)
                ∪ doc).
Proof.
  intros Hd Hf Hoid Hdoc.
  rewrite (toggle_task_run _ _ d oid Hd Hf Hoid). rewrite Hdoc. cbv zeta. cbn [snd].
  eexists. split; [reflexivity|]. split; [exact Hf|].
  rewrite collection_set_collection. apply lookup_insert_eq.
Qed.

(** C10. The update filter drops a field exactly when it is [None]: each
    body field is in the update set with its value whenever it carries one,
    [false] and the empty string included. So for a request with
    [completed = false], a well-formed identifier and a matching document on
    a working database, the stored document's [completed] is [false]
    afterwards, and so is the response's. *)
Theorem update_task_keeps_false task_id payload w d oid doc :
  db w = Some d → db_fault d = None →
  ObjectId_of_str task_id = Some oid →
  stored w TASK_COLLECTION !! oid = Some doc →
  update_completed payload = Some false →
  update_fields payload !! "title" = VStr <$> update_title payload ∧
  update_fields payload !! "notes" = VStr <$> update_notes payload ∧
  update_fields payload !! "due_at" = VDatetime <$> update_due_at payload ∧
  update_fields payload !! "completed" = Some (VBool false) ∧
  (∃ doc',
     stored (update_task task_id payload w).2 TASK_COLLECTION !! oid = Some doc' ∧
     doc' !! "completed" = Some (VBool false)) ∧
  (∀ t, (update_task task_id payload w).1 = Return t → out_completed t = false).
Proof.
  intros Hd Hf Hoid Hdoc Hc.
  rewrite (stored_healthy _ _ _ Hd) in Hdoc.
  assert (update_fields payload !! "completed" = Some (VBool false)) as Hfc.
  { rewrite update_fields_completed, Hc. reflexivity. }
  assert (update_fields payload ≠ ∅) as Hne.
  { intros He. rewrite He, lookup_empty in Hfc. discriminate Hfc. }
  split; [apply update_fields_title|]. split; [apply update_fields_notes|].
  split; [apply update_fields_due_at|]. split; [exact Hfc|].
  rewrite (update_task_run _ _ _ d oid Hd Hf Hoid Hne). cbv zeta. rewrite Hdoc.
  cbn [fst snd]. rewrite stored_after, collection_set_collection.
  assert ((<["updated_at" := VDatetime (clock w)]> (update_fields payload) ∪ doc)
            !! "completed" = Some (VBool false)) as Hnew.
  { apply lookup_union_Some_l. rewrite lookup_insert_ne by discriminate. exact Hfc. }
  clear Hne Hdoc. split.
  - eexists. split; [apply lookup_insert_eq|exact Hnew].
  - intros t Ht. apply response_of_completed in Ht. congruence.
Qed.

(** C5. On a working database, for a stored task whose [completed] is the
    boolean [b]: after one toggle the stored [completed] is [negb b]; after a
    second toggle, whatever the clock shows by then, it is [b] again, and
    every field other than [updated_at] is as it was at the start. *)
Theorem toggle_task_twice task_id w d oid doc b later :
  db w = Some d → db_fault d = None →
  ObjectId_of_str task_id = Some oid →
  stored w TASK_COLLECTION !! oid = Some doc →
  doc !! "completed" = Some (VBool b) →
  ∃ doc1 doc2,
    stored (toggle_task task_id w).2 TASK_COLLECTION !! oid = Some doc1 ∧
    doc1 !! "completed" = Some (VBool (negb b)) ∧
    stored (toggle_task task_id (set_clock later (toggle_task task_id w).2)).2
      TASK_COLLECTION !! oid = Some doc2 ∧
    doc2 !! "completed" = Some (VBool b) ∧
    (∀ k, k ≠ "updated_at" → doc2 !! k = doc !! k).
Proof.
  intros Hd Hf Hoid Hdoc Hc.
  rewrite (stored_healthy _ _ _ Hd) in Hdoc.
  destruct (toggle_task_stored task_id w d oid doc Hd Hf Hoid Hdoc)
    as (d1 & Hd1 & Hf1 & Hdoc1).
  unfold dict_get in Hdoc1. rewrite Hc in Hdoc1. cbn [default from_option id truthy] in Hdoc1.
  assert (db (set_clock later (toggle_task task_id w).2) = Some d1) as Hd1'
    by exact Hd1.
  destruct (toggle_task_stored task_id _ d1 oid _ Hd1' Hf1 Hoid Hdoc1)
    as (d2 & Hd2 & Hf2 & Hdoc2).
  unfold dict_get in Hdoc2. rewrite toggle_fields_completed in Hdoc2.
  cbn [default from_option id truthy] in Hdoc2. rewrite negb_involutive in Hdoc2.
  rewrite (stored_healthy _ _ _ Hd1), (stored_healthy _ _ _ Hd2).
  eexists _, _. split; [exact Hdoc1|]. split; [apply toggle_fields_completed|].
  split; [exact Hdoc2|]. split; [apply toggle_fields_completed|].
  intros k Hk. destruct (decide (k = "completed")) as [->|Hkc].
  - rewrite Hc. apply toggle_fields_completed.
  - rewrite !toggle_fields_other by assumption. reflexivity.
Qed.

(** C6. On a working database whose clock shows [clock w]: a valid create
    request stores a document whose [updated_at] is [clock w]; a toggle of a
    stored task leaves its [updated_at] at [clock w]; an update of a stored
    task with a non-empty update set leaves its [updated_at] at [clock w]. *)
Theorem mutations_set_updated_at w d :
  db w = Some d → db_fault d = None →
  (∀ body, TaskCreate_valid body = true →
     ∃ t oid doc,
       (post_tasks body w).1 = Return t ∧ out_id t = str_ObjectId oid ∧
       stored (post_tasks body w).2 TASK_COLLECTION !! oid = Some doc ∧
       doc !! "updated_at" = Some (VDatetime (clock w))) ∧
  (∀ task_id oid doc,
     ObjectId_of_str task_id = Some oid →
     stored w TASK_COLLECTION !! oid = Some doc →
     ∃ doc',
       stored (toggle_task task_id w).2 TASK_COLLECTION !! oid = Some doc' ∧
       doc' !! "updated_at" = Some (VDatetime (clock w))) ∧
  (∀ task_id payload oid doc,
     ObjectId_of_str task_id = Some oid →
     stored w TASK_COLLECTION !! oid = Some doc →
     update_fields payload ≠ ∅ →
     ∃ doc',
       stored (update_task task_id payload w).2 TASK_COLLECTION !! oid = Some doc' ∧
       doc' !! "updated_at" = Some (VDatetime (clock w))).
Proof.
  intros Hd Hf. split; [|split].
  - intros body Hvalid. unfold post_tasks. rewrite Hvalid.
    rewrite (create_task_run _ _ d Hd Hf). cbv zeta. cbn [fst snd].
    rewrite new_document_response.
    eexists _, (next_id d), _. split; [reflexivity|]. split; [reflexivity|].
    rewrite stored_after.
    change (collection (set_issued ?f ?d') ?c) with (collection d' c).
    rewrite collection_set_collection.
    split; [apply lookup_insert_eq|apply new_document_updated_at].
  - intros task_id oid doc Hoid Hdoc.
    rewrite (stored_healthy _ _ _ Hd) in Hdoc.
    rewrite (toggle_task_run _ _ d oid Hd Hf Hoid). rewrite Hdoc. cbv zeta. cbn [snd].
    rewrite stored_after, collection_set_collection.
    eexists. split; [apply lookup_insert_eq|].
    apply toggle_fields_updated_at.
  - intros task_id payload oid doc Hoid Hdoc Hne.
    rewrite (stored_healthy _ _ _ Hd) in Hdoc.
    rewrite (update_task_run _ _ _ d oid Hd Hf Hoid Hne). cbv zeta. rewrite Hdoc.
    cbn [snd]. rewrite stored_after, collection_set_collection.
    eexists. split; [apply lookup_insert_eq|].
    apply lookup_union_Some_l. apply lookup_insert_eq.
Qed.

End TaskClaims.

Section ErrorClaims.
Context {L : Library}.

(** A handler that answers 404 was given a well-formed identifier that names
    no stored document. *)
Lemma toggle_task_404 task_id w detail w' :
  toggle_task task_id w = (Raise (HTTPException 404 detail), w') →
  ∃ oid, ObjectId_of_str task_id = Some oid ∧ stored w TASK_COLLECTION !! oid = None.
Proof.
  destruct (ObjectId_of_str task_id) as [oid|] eqn:Hoid.
  2:{ unfold toggle_task. rewrite bind_run, parse_task_id_run, Hoid. intros [= ?]. }
  intros Hrun. exists oid. split; [reflexivity|].
  destruct (db w) as [d|] eqn:Hd; [|unfold stored; rewrite Hd; apply lookup_empty].
  rewrite (stored_healthy _ _ _ Hd).
  destruct (db_fault d) as [[cls msg]|] eqn:Hf.
  - unfold toggle_task in Hrun. rewrite bind_run, parse_task_id_run, Hoid in Hrun.
    rewrite bind_run in Hrun. unfold find_one in Hrun.
    rewrite (driver_call_fault _ _ _ _ _ _ Hd Hf) in Hrun. discriminate Hrun.
  - rewrite (toggle_task_run _ _ d oid Hd Hf Hoid) in Hrun.
    destruct (collection d TASK_COLLECTION !! oid) as [doc|]; [|reflexivity].
    cbv zeta in Hrun. pose proof (f_equal fst Hrun) as Hr. cbn [fst] in Hr.
    destruct (response_of_not_http _ _ _ _ Hr).
Qed.

Lemma update_task_404 task_id payload w detail w' :
  update_task task_id payload w = (Raise (HTTPException 404 detail), w') →
  ∃ oid, ObjectId_of_str task_id = Some oid ∧ stored w TASK_COLLECTION !! oid = None.
Proof.
  destruct (ObjectId_of_str task_id) as [oid|] eqn:Hoid.
  2:{ unfold update_task. rewrite bind_run, parse_task_id_run, Hoid. intros [= ?]. }
  intros Hrun. exists oid. split; [reflexivity|].
  destruct (decide (update_fields payload = ∅)) as [He|Hne].
  { rewrite (update_task_run_empty _ _ _ oid Hoid He) in Hrun.
    pose proof (f_equal fst Hrun) as Hs. cbn [fst] in Hs. discriminate Hs. }
  destruct (db w) as [d|] eqn:Hd; [|unfold stored; rewrite Hd; apply lookup_empty].
  rewrite (stored_healthy _ _ _ Hd).
  destruct (db_fault d) as [[cls msg]|] eqn:Hf.
  - unfold update_task in Hrun. rewrite bind_run, parse_task_id_run, Hoid in Hrun.
    rewrite bool_decide_eq_false_2 in Hrun by exact Hne.
    rewrite bind_run in Hrun. unfold utcnow, gets in Hrun.
    rewrite bind_run in Hrun. unfold update_one in Hrun.
    rewrite (driver_call_fault _ _ _ _ _ _ Hd Hf) in Hrun. discriminate Hrun.
  - rewrite (update_task_run _ _ _ d oid Hd Hf Hoid Hne) in Hrun.
    destruct (collection d TASK_COLLECTION !! oid) as [doc|]; [|reflexivity].
    cbv zeta in Hrun. pose proof (f_equal fst Hrun) as Hr. cbn [fst] in Hr.
    destruct (response_of_not_http _ _ _ _ Hr).
Qed.

Lemma delete_task_404 task_id w detail w' :
  delete_task task_id w = (Raise (HTTPException 404 detail), w') →
  ∃ oid, ObjectId_of_str task_id = Some oid ∧ stored w TASK_COLLECTION !! oid = None.
Proof.
  destruct (ObjectId_of_str task_id) as [oid|] eqn:Hoid.
  2:{ unfold delete_task. rewrite bind_run, parse_task_id_run, Hoid. intros [= ?]. }
  intros Hrun. exists oid. split; [reflexivity|].
  destruct (db w) as [d|] eqn:Hd; [|unfold stored; rewrite Hd; apply lookup_empty].
  rewrite (stored_healthy _ _ _ Hd).
  destruct (db_fault d) as [[cls msg]|] eqn:Hf.
  - unfold delete_task in Hrun. rewrite bind_run, parse_task_id_run, Hoid in Hrun.
    rewrite bind_run in Hrun. unfold delete_one in Hrun.
    rewrite (driver_call_fault _ _ _ _ _ _ Hd Hf) in Hrun. discriminate Hrun.
  - rewrite (delete_task_run _ _ d oid Hd Hf Hoid) in Hrun.
    destruct (collection d TASK_COLLECTION !! oid) as [doc|]; [|reflexivity].
    discriminate Hrun.
Qed.

(** C7. For an identifier string that does not parse, toggle, update and
    delete each fail with 400 "Invalid task id" and leave the world exactly
    as it was: no driver call is made. And whenever one of them answers 404,
    the identifier parsed and names no stored document. *)
Theorem invalid_task_id_rejected task_id payload w :
  (ObjectId_of_str task_id = None →
     toggle_task task_id w = (Raise (HTTPException 400 "Invalid task id"), w) ∧
     update_task task_id payload w = (Raise (HTTPException 400 "Invalid task id"), w) ∧
     delete_task task_id w = (Raise (HTTPException 400 "Invalid task id"), w)) ∧
  (∀ detail w',
     toggle_task task_id w = (Raise (HTTPException 404 detail), w') ∨
     update_task task_id payload w = (Raise (HTTPException 404 detail), w') ∨
     delete_task task_id w = (Raise (HTTPException 404 detail), w') →
     ∃ oid, ObjectId_of_str task_id = Some oid ∧
            stored w TASK_COLLECTION !! oid = None).
Proof.
  split.
  - intros Hoid. unfold toggle_task, update_task, delete_task.
    rewrite !bind_run, parse_task_id_run, Hoid. repeat split.
  - intros detail w' [Hrun|[Hrun|Hrun]].
    + exact (toggle_task_404 _ _ _ _ Hrun).
    + exact (update_task_404 _ _ _ _ _ Hrun).
    + exact (delete_task_404 _ _ _ _ Hrun).
Qed.

(** C8. On a working database and a well-formed identifier: if no stored
    document matches, delete answers 404 "Task not found" and the stored
    documents are as before; if a document matches, a first delete succeeds
    and removes it, and a second delete right after answers 404 and removes
    nothing. *)
Theorem delete_task_missing_and_twice task_id w d oid :
  db w = Some d → db_fault d = None →
  ObjectId_of_str task_id = Some oid →
  (stored w TASK_COLLECTION !! oid = None →
     (delete_task task_id w).1 = Raise (HTTPException 404 "Task not found") ∧
     db (delete_task task_id w).2 = db w) ∧
  (∀ doc, stored w TASK_COLLECTION !! oid = Some doc →
     (delete_task task_id w).1 = Return true ∧
     stored (delete_task task_id w).2 TASK_COLLECTION
     = delete oid (stored w TASK_COLLECTION) ∧
     (delete_task task_id (delete_task task_id w).2).1
     = Raise (HTTPException 404 "Task not found") ∧
     db (delete_task task_id (delete_task task_id w).2).2
     = db (delete_task task_id w).2).
Proof.
  intros Hd Hf Hoid. rewrite (stored_healthy _ _ _ Hd).
  rewrite (delete_task_run _ _ d oid Hd Hf Hoid). split.
  - intros Hnone. rewrite Hnone. cbn [fst snd]. split; [reflexivity|].
    cbn [after db]. by rewrite Hd.
  - intros doc Hdoc. rewrite Hdoc. cbn [fst snd].
    split; [reflexivity|]. rewrite stored_after, collection_set_collection.
    split; [reflexivity|].
    erewrite delete_task_run; [|reflexivity|exact Hf|exact Hoid].
    rewrite collection_set_collection, lookup_delete_eq. split; reflexivity.
Qed.

(** C4. On a working database, a valid create request is answered with a
    task: the driver generated an identifier [oid] it had not issued before
    and that names no stored document; the document stored under [oid] has
    the request's title and [completed = false]; the handler's last driver
    call fetches [oid] again, right after the insert; the response is the
    [TaskOut] of the serialization of that stored document, so it carries the
    timestamps the store adapter set; its [completed] is [false] and its [id]
    is the non-empty string of [oid], different from the string of every
    identifier issued before; and [oid] counts as issued from then on. *)
Theorem post_tasks_creates body w d :
  db w = Some d → db_fault d = None →
  TaskCreate_valid body = true →
  ∃ t w' oid doc,
    post_tasks body w = (Return t, w') ∧
    (oid ∉ db_issued d) ∧ stored w TASK_COLLECTION !! oid = None ∧
    stored w' TASK_COLLECTION !! oid = Some doc ∧
    doc !! "title" = Some (VStr (create_title body)) ∧
    doc !! "completed" = Some (VBool false) ∧
    calls w' = FindOne TASK_COLLECTION oid :: InsertOne TASK_COLLECTION doc :: calls w ∧
    TaskOut_ (serialize_doc_value (Some (<["_id" := VObjectId oid]> doc))) = Return t ∧
    out_updated_at t = Some (isoformat (clock w)) ∧
    out_completed t = false ∧
    out_id t = str_ObjectId oid ∧ out_id t ≠ "" ∧
    (∀ oid', oid' ∈ db_issued d → out_id t ≠ str_ObjectId oid') ∧
    (∃ d', db w' = Some d' ∧ db_issued d' = {[oid]} ∪ db_issued d).
Proof.
  intros Hd Hf Hvalid. unfold post_tasks. rewrite Hvalid.
  rewrite (create_task_run _ _ d Hd Hf). cbv zeta.
  rewrite (stored_healthy _ _ _ Hd).
  destruct (next_id_fresh d) as [Hissued Hnew].
  eexists _, _, (next_id d), (new_document body (clock w)).
  split; [by rewrite new_document_response|].
  split; [exact Hissued|]. split; [exact Hnew|].
  split.
  { rewrite stored_after.
    change (collection (set_issued ?f ?d') ?c) with (collection d' c).
    rewrite collection_set_collection. apply lookup_insert_eq. }
  split; [apply new_document_title|]. split; [apply new_document_completed|].
  split; [reflexivity|]. split; [apply new_document_response|].
  cbn [out_updated_at out_completed out_id].
  split; [reflexivity|]. split; [reflexivity|]. split; [reflexivity|].
  split; [apply str_ObjectId_nonempty|]. split.
  - intros oid' Hin Heq. apply str_ObjectId_inj in Heq. congruence.
  - eexists. split; reflexivity.
Qed.

End ErrorClaims.

(** ** The diagnostics endpoint *)

Section DiagnosticsClaims.
Context {L : Library}.

(** C9. [test_database] returns a status object in every world: it never
    raises. It leaves the database handle, the clock and the environment as
    they were; the only thing it may do is one [list_collection_names] call.
    The object lists at most 10 collection names. Without a database it
    reports that; when reading [db.name] raises, or the server does not
    answer, the exception text is reported in [database] and no collection
    is listed; on a working database it lists the first 10 names. *)
Theorem test_database_never_raises (w : World) :
  ∃ r w',
    test_database w = (Return r, w') ∧
    db w' = db w ∧ clock w' = clock w ∧ environ w' = environ w ∧
    (calls w' = calls w ∨ calls w' = ListCollectionNames :: calls w) ∧
    (List.length (collections r) ≤ 10)%nat ∧
    match db w with
    | None =>
      database r = "⚠️  Available but not initialized" ∧
      collections r = [] ∧ calls w' = calls w
    | Some d =>
      match db_name d with
      | AttrRaises e =>
        database r = "❌ Error: " +:+ str_take 50 (str_exn e) ∧
        collections r = [] ∧ calls w' = calls w
      | _ =>
        match db_fault d with
        | Some (cls, msg) =>
          database r = "⚠️  Connected but Error: " +:+ str_take 50 msg ∧
          collections r = []
        | None =>
          database r = "✅ Connected & Working" ∧
          collections r = take 10 (db_collection_names d)
        end
      end
    end.
Proof.
  unfold test_database, test_database_body.
  unfold try_except at 1. rewrite !bind_run.
  unfold global at 1, gets at 1. cbn [fst snd].
  destruct w as [dbw clk env cs]. cbn [db clock environ calls].
  destruct dbw as [d|].
  2:{ eexists _, _. split; [reflexivity|]. cbn.
      repeat split; [by left|lia]. }
  destruct d as [nm fault names colls issued]. cbn [db_name db_fault db_collection_names].
  destruct nm as [v| |e].
  3:{ eexists _, _. split; [reflexivity|]. cbn.
      repeat split; [by left|lia]. }
  all: destruct fault as [[cls msg]|].
  all: eexists _, _; (split; [reflexivity|]); cbn;
    repeat split; try (by right); try lia.
  all: rewrite length_take; lia.
Qed.

End DiagnosticsClaims.
(** C1 on the example world: the update [example_update] of task [0]. *)
Lemma update_task_applies_fields_witness :
  ∃ doc',
    stored (update_task "0" example_update example_world).2 TASK_COLLECTION !! 0%N
    = Some doc' ∧
    applied_or_kept (update_title example_update) VStr "title" example_task doc' ∧
    applied_or_kept (update_notes example_update) VStr "notes" example_task doc' ∧
    applied_or_kept (update_due_at example_update) VDatetime "due_at" example_task doc' ∧
    applied_or_kept (update_completed example_update) VBool "completed" example_task doc' ∧
    (∀ k, k ∉ ["title"; "notes"; "due_at"; "completed"; "updated_at"] →
          doc' !! k = example_task !! k) ∧
    (∀ oid', oid' ≠ 0%N →
          stored (update_task "0" example_update example_world).2 TASK_COLLECTION !! oid'
          = stored example_world TASK_COLLECTION !! oid').
Proof.
  apply (update_task_applies_fields "0" example_update example_world example_db
           0%N example_task); reflexivity.
Defined.

(** C2 on the example world: the empty update of task [0]. *)
Lemma update_task_empty_rejected_witness :
  update_task "0" empty_update example_world
  = (Raise (HTTPException 400 "No fields to update"), example_world).
Proof.
  apply (update_task_empty_rejected "0" empty_update example_world 0%N);
    reflexivity.
Defined.

(** C10 on the example world: [example_update] carries [completed = false] and an empty [notes]. *)
Lemma update_task_keeps_false_witness :
  update_fields example_update !! "title" = VStr <$> update_title example_update ∧
  update_fields example_update !! "notes" = VStr <$> update_notes example_update ∧
  update_fields example_update !! "due_at" = VDatetime <$> update_due_at example_update ∧
  update_fields example_update !! "completed" = Some (VBool false) ∧
  (∃ doc',
     stored (update_task "0" example_update example_world).2 TASK_COLLECTION !! 0%N
     = Some doc' ∧
     doc' !! "completed" = Some (VBool false)) ∧
  (∀ t, (update_task "0" example_update example_world).1 = Return t →
        out_completed t = false).
Proof.
  apply (update_task_keeps_false "0" example_update example_world example_db
           0%N example_task); reflexivity.
Defined.

(** C5 on the example world: task [0], whose [completed] is [false], toggled twice. *)
Lemma toggle_task_twice_witness :
  ∃ doc1 doc2,
    stored (toggle_task "0" example_world).2 TASK_COLLECTION !! 0%N = Some doc1 ∧
    doc1 !! "completed" = Some (VBool (negb false)) ∧
    stored (toggle_task "0" (set_clock example_time (toggle_task "0" example_world).2)).2
      TASK_COLLECTION !! 0%N = Some doc2 ∧
    doc2 !! "completed" = Some (VBool false) ∧
    (∀ k, k ≠ "updated_at" → doc2 !! k = example_task !! k).
Proof.
  apply (toggle_task_twice "0" example_world example_db 0%N example_task false
           example_time); reflexivity.
Defined.

(** C6 on the example world, whose clock shows [example_later]. *)
Lemma mutations_set_updated_at_witness :
  (∃ t oid doc,
     (post_tasks example_create example_world).1 = Return t ∧
     out_id t = str_ObjectId oid ∧
     stored (post_tasks example_create example_world).2 TASK_COLLECTION !! oid
     = Some doc ∧
     doc !! "updated_at" = Some (VDatetime example_later)) ∧
  (∃ doc',
     stored (toggle_task "0" example_world).2 TASK_COLLECTION !! 0%N = Some doc' ∧
     doc' !! "updated_at" = Some (VDatetime example_later)) ∧
  (∃ doc',
     stored (update_task "0" example_update example_world).2 TASK_COLLECTION !! 0%N
     = Some doc' ∧
     doc' !! "updated_at" = Some (VDatetime example_later)).
Proof.
  destruct (mutations_set_updated_at example_world example_db eq_refl eq_refl)
    as (Hcreate & Htoggle & Hupdate).
  split; [exact (Hcreate example_create eq_refl)|]. split.
  - exact (Htoggle "0" 0%N example_task eq_refl eq_refl).
  - refine (Hupdate "0" example_update 0%N example_task eq_refl eq_refl _).
    intros He. apply (f_equal (λ m : gmap string value, m !! "completed")) in He.
    vm_compute in He. discriminate He.
Defined.

(** C8 on the example world: task [0] deleted twice. *)
Lemma delete_task_missing_and_twice_witness :
  (stored example_world TASK_COLLECTION !! 0%N = None →
     (delete_task "0" example_world).1 = Raise (HTTPException 404 "Task not found") ∧
     db (delete_task "0" example_world).2 = db example_world) ∧
  (∀ doc, stored example_world TASK_COLLECTION !! 0%N = Some doc →
     (delete_task "0" example_world).1 = Return true ∧
     stored (delete_task "0" example_world).2 TASK_COLLECTION
     = delete 0%N (stored example_world TASK_COLLECTION) ∧
     (delete_task "0" (delete_task "0" example_world).2).1
     = Raise (HTTPException 404 "Task not found") ∧
     db (delete_task "0" (delete_task "0" example_world).2).2
     = db (delete_task "0" example_world).2).
Proof.
  apply (delete_task_missing_and_twice "0" example_world example_db 0%N);
    reflexivity.
Defined.

(** C4 on the example world, where the identifier [0] was issued before. *)
Lemma post_tasks_creates_witness :
  ∃ t w',
    post_tasks example_create example_world = (Return t, w') ∧
    out_completed t = false ∧ out_id t ≠ "" ∧ out_id t ≠ str_ObjectId 0%N.
Proof.
  destruct (post_tasks_creates example_create example_world example_db
              eq_refl eq_refl eq_refl)
    as (t & w' & oid & doc & Hrun & _ & _ & _ & _ & _ & _ & _ & _ & Hc & _ & Hne & Hold & _).
  exists t, w'. split; [exact Hrun|]. split; [exact Hc|]. split; [exact Hne|].
  apply Hold. apply elem_of_singleton. reflexivity.
Defined.

(** * Further properties of the code *)

(** ** The serializer, once more *)

Section SerializerFurther.
Context {L : Library}.

Lemma isoformat_value_idemp (v : value) :
  isoformat_value (isoformat_value v) = isoformat_value v.
Proof. by destruct v. Qed.

Lemma isoformat_value_not_datetime (v : value) t : isoformat_value v ≠ VDatetime t.
Proof. by destruct v. Qed.

(** What [serialize_doc_value] returns on a non-empty dict holds no
    [ObjectId] under [_id]. *)
Lemma serialized_no_identifier (d : gmap string value) o :
  (isoformat_value <$> rewrite_id d) !! "_id" ≠ Some (VObjectId o).
Proof.
  rewrite lookup_fmap. unfold rewrite_id.
  destruct (d !! "_id") as [v|] eqn:Hid.
  - destruct v; try (rewrite Hid; simpl; congruence).
    rewrite lookup_delete_eq. simpl. congruence.
  - rewrite Hid. simpl. congruence.
Qed.

Lemma rewrite_id_serialized (d : gmap string value) :
  rewrite_id (isoformat_value <$> rewrite_id d) = isoformat_value <$> rewrite_id d.
Proof.
  unfold rewrite_id at 1.
  destruct ((isoformat_value <$> rewrite_id d) !! "_id") as [v|] eqn:Hid; [|reflexivity].
  destruct v; try reflexivity.
  by destruct (serialized_no_identifier d o).
Qed.

Lemma rewrite_id_nonempty (d : gmap string value) : d ≠ ∅ → rewrite_id d ≠ ∅.
Proof.
  intros Hd. unfold rewrite_id.
  destruct (d !! "_id") as [v|]; [|exact Hd].
  destruct v; try exact Hd.
  intros He. apply (f_equal (lookup "id")) in He.
  rewrite lookup_delete_ne, lookup_insert_eq, lookup_empty in He by discriminate.
  discriminate He.
Qed.

Lemma serialized_nonempty (d : gmap string value) :
  d ≠ ∅ → isoformat_value <$> rewrite_id d ≠ ∅.
Proof.
  intros Hd He. apply fmap_empty_inv in He. by apply rewrite_id_nonempty in He.
Qed.

(** X1. Serializing twice gives what serializing once gives: the dict
    returned by the second call has the items of the dict returned by the
    first (and [None] stays [None]). *)
Theorem serialize_doc_idempotent (h : gmap loc (gmap string value)) (doc : option loc) :
  deref (serialize_doc (serialize_doc doc h).1 (serialize_doc doc h).2).2
    <$> (serialize_doc (serialize_doc doc h).1 (serialize_doc doc h).2).1
  = deref (serialize_doc doc h).2 <$> (serialize_doc doc h).1.
Proof.
  destruct doc as [l|]; [|reflexivity].
  destruct (decide (deref h l = ∅)) as [He|Hne].
  { assert (serialize_doc (Some l) h = (Some l, h)) as Hrun.
    { unfold serialize_doc, falsy_doc. by rewrite bool_decide_eq_true_2. }
    rewrite Hrun. cbn [fst snd]. rewrite Hrun. reflexivity. }
  destruct (h !! l) as [d|] eqn:Hl; [|by unfold deref in Hne; rewrite Hl in Hne].
  assert (deref h l = d) as Hd by (unfold deref; by rewrite Hl).
  rewrite Hd in Hne.
  rewrite (serialize_doc_deref h l d Hl Hne). cbn [fst snd].
  erewrite serialize_doc_deref;
    [|apply lookup_insert_eq|by apply serialized_nonempty].
  cbn [fst snd fmap option_fmap option_map].
  rewrite !deref_insert_eq, rewrite_id_serialized.
  f_equal. rewrite <- map_fmap_compose. apply map_fmap_ext.
  intros k v _. apply isoformat_value_idemp.
Qed.

(** X2. Whatever [serialize_doc] returns holds no datetime value in any
    field and no [ObjectId] under [_id]. *)
Theorem serialize_doc_no_datetime (h : gmap loc (gmap string value))
    (doc : option loc) (l' : loc) :
  (serialize_doc doc h).1 = Some l' →
  (∀ k t, deref (serialize_doc doc h).2 l' !! k ≠ Some (VDatetime t)) ∧
  (∀ o, deref (serialize_doc doc h).2 l' !! "_id" ≠ Some (VObjectId o)).
Proof.
  destruct doc as [l|]; [|intros [=]].
  destruct (decide (deref h l = ∅)) as [He|Hne].
  { assert (serialize_doc (Some l) h = (Some l, h)) as Hrun.
    { unfold serialize_doc, falsy_doc. by rewrite bool_decide_eq_true_2. }
    rewrite Hrun. cbn [fst snd]. intros [= <-]. rewrite He.
    split; intros; rewrite lookup_empty; discriminate. }
  destruct (h !! l) as [d|] eqn:Hl; [|by unfold deref in Hne; rewrite Hl in Hne].
  assert (deref h l = d) as Hd by (unfold deref; by rewrite Hl).
  rewrite Hd in Hne.
  rewrite (serialize_doc_deref h l d Hl Hne). cbn [fst snd]. intros [= <-].
  rewrite deref_insert_eq. split.
  - intros k t. rewrite lookup_fmap.
    destruct (rewrite_id d !! k) as [v|]; simpl; [|discriminate].
    intros [= Hv]. by apply isoformat_value_not_datetime in Hv.
  - apply serialized_no_identifier.
Qed.

End SerializerFurther.

(** X2 on the heap that holds [collision_doc]. *)
Lemma serialize_doc_no_datetime_witness :
  (∀ k t, deref (serialize_doc (Some 1%positive) collision_heap).2 2%positive !! k
          ≠ Some (VDatetime t)) ∧
  (∀ o, deref (serialize_doc (Some 1%positive) collision_heap).2 2%positive !! "_id"
        ≠ Some (VObjectId o)).
Proof.
  apply (serialize_doc_no_datetime collision_heap (Some 1%positive) 2%positive).
  vm_compute. reflexivity.
Defined.

(** ** The task handlers, once more *)

Section HandlersFurther.
Context {L : Library}.

(** X3. A toggle of a stored document, whatever its fields: afterwards
    [completed] is the boolean negation of the truth value of
    [doc.get("completed", False)], so a document without [completed] ends
    up with [True]; every field other than [completed] and [updated_at] is
    as before, and no other document changed. *)
Theorem toggle_task_effect task_id w d oid doc :
  db w = Some d → db_fault d = None →
  ObjectId_of_str task_id = Some oid →
  stored w TASK_COLLECTION !! oid = Some doc →
  ∃ doc',
    stored (toggle_task task_id w).2 TASK_COLLECTION !! oid = Some doc' ∧
    doc' !! "completed"
    = Some (VBool (negb (truthy (dict_get doc "completed" (VBool false))))) ∧
    (doc !! "completed" = None → doc' !! "completed" = Some (VBool true)) ∧
    (∀ k, k ≠ "completed" → k ≠ "updated_at" → doc' !! k = doc !! k) ∧
    (∀ oid', oid' ≠ oid →
       stored (toggle_task task_id w).2 TASK_COLLECTION !! oid'
       = stored w TASK_COLLECTION !! oid').
Proof.
  intros Hd Hf Hoid Hdoc.
  rewrite (stored_healthy _ _ _ Hd) in Hdoc |- *.
  rewrite (toggle_task_run _ _ d oid Hd Hf Hoid). rewrite Hdoc. cbv zeta. cbn [snd].
  rewrite stored_after, collection_set_collection.
  eexists. split; [apply lookup_insert_eq|].
  split; [apply toggle_fields_completed|]. split; [|split].
  - intros Hnone. rewrite toggle_fields_completed. unfold dict_get.
    rewrite Hnone. reflexivity.
  - intros k Hc Hu. apply toggle_fields_other; assumption.
  - intros oid' Hne. apply lookup_insert_ne. congruence.
Qed.

(** X4. The 404 paths write nothing. On a working database, for a
    well-formed identifier that names no stored document: toggle answers 404
    after a single [find_one], update with a non-empty update set answers
    404 after a single [update_one] that matched nothing, and in both cases
    the database is as before. *)
Theorem not_found_writes_nothing task_id payload w d oid :
  db w = Some d → db_fault d = None →
  ObjectId_of_str task_id = Some oid →
  stored w TASK_COLLECTION !! oid = None →
  ((toggle_task task_id w).1 = Raise (HTTPException 404 "Task not found") ∧
   db (toggle_task task_id w).2 = db w ∧
   calls (toggle_task task_id w).2 = FindOne TASK_COLLECTION oid :: calls w) ∧
  (update_fields payload ≠ ∅ →
   (update_task task_id payload w).1 = Raise (HTTPException 404 "Task not found") ∧
   db (update_task task_id payload w).2 = db w ∧
   calls (update_task task_id payload w).2
   = UpdateOne TASK_COLLECTION oid
       (<["updated_at" := VDatetime (clock w)]> (update_fields payload)) :: calls w).
Proof.
  intros Hd Hf Hoid Hnone. rewrite (stored_healthy _ _ _ Hd) in Hnone. split.
  - rewrite (toggle_task_run _ _ d oid Hd Hf Hoid). rewrite Hnone. cbn [fst snd].
    split; [reflexivity|]. split; [|reflexivity]. cbn [after db]. by rewrite Hd.
  - intros Hne. rewrite (update_task_run _ _ _ d oid Hd Hf Hoid Hne).
    cbv zeta. rewrite Hnone. cbn [fst snd].
    split; [reflexivity|]. split; [|reflexivity]. cbn [after db]. by rewrite Hd.
Qed.

(** X5. The handlers do not catch what the store raises. With a well-formed
    identifier: without a database, toggle, delete and a non-empty update
    raise the [TypeError] of [db[...]] and leave the world as it was; when
    the server does not answer, they raise the driver's exception as it is,
    after a single driver call, and the database is as before. *)
Theorem store_failure_surfaces task_id payload w oid :
  ObjectId_of_str task_id = Some oid →
  update_fields payload ≠ ∅ →
  (db w = None →
     let e := Exception "TypeError" "'NoneType' object is not subscriptable" in
     toggle_task task_id w = (Raise e, w) ∧
     update_task task_id payload w = (Raise e, w) ∧
     delete_task task_id w = (Raise e, w)) ∧
  (∀ d cls msg, db w = Some d → db_fault d = Some (cls, msg) →
     toggle_task task_id w
     = (Raise (Exception cls msg), log_call (FindOne TASK_COLLECTION oid) w) ∧
     update_task task_id payload w
     = (Raise (Exception cls msg),
        log_call (UpdateOne TASK_COLLECTION oid
                    (<["updated_at" := VDatetime (clock w)]> (update_fields payload))) w) ∧
     delete_task task_id w
     = (Raise (Exception cls msg), log_call (DeleteOne TASK_COLLECTION oid) w)).
Proof.
  intros Hoid Hne. split.
  - intros Hd. cbv zeta. unfold toggle_task, update_task, delete_task.
    rewrite !bind_run, parse_task_id_run, Hoid.
    rewrite bool_decide_eq_false_2 by exact Hne.
    rewrite !bind_run. unfold utcnow, gets. rewrite !bind_run.
    unfold find_one, update_one, delete_one.
    rewrite !driver_call_no_db by exact Hd. repeat split.
  - intros d cls msg Hd Hf. unfold toggle_task, update_task, delete_task.
    rewrite !bind_run, parse_task_id_run, Hoid.
    rewrite bool_decide_eq_false_2 by exact Hne.
    rewrite !bind_run. unfold utcnow, gets. rewrite !bind_run.
    unfold find_one, update_one, delete_one.
    rewrite !(driver_call_fault _ _ _ _ _ _ Hd Hf). repeat split.
Qed.

(** X6. A deleted task is gone for the other handlers: on a working
    database, right after a successful delete of a stored task, a toggle of
    the same identifier answers 404 and so does a non-empty update. *)
Theorem deleted_task_not_found task_id payload w d oid doc :
  db w = Some d → db_fault d = None →
  ObjectId_of_str task_id = Some oid →
  stored w TASK_COLLECTION !! oid = Some doc →
  update_fields payload ≠ ∅ →
  (delete_task task_id w).1 = Return true ∧
  (toggle_task task_id (delete_task task_id w).2).1
  = Raise (HTTPException 404 "Task not found") ∧
  (update_task task_id payload (delete_task task_id w).2).1
  = Raise (HTTPException 404 "Task not found").
Proof.
  intros Hd Hf Hoid Hdoc Hne. rewrite (stored_healthy _ _ _ Hd) in Hdoc.
  rewrite (delete_task_run _ _ d oid Hd Hf Hoid). rewrite Hdoc. cbn [fst snd].
  split; [reflexivity|]. split.
  - erewrite toggle_task_run; [|reflexivity|exact Hf|exact Hoid].
    rewrite collection_set_collection, lookup_delete_eq. reflexivity.
  - erewrite update_task_run; [|reflexivity|exact Hf|exact Hoid|exact Hne].
    cbv zeta. rewrite collection_set_collection, lookup_delete_eq. reflexivity.
Qed.

(** X7. Updating twice with the same body is updating once: on a working
    database, after a second run of the same non-empty update (the clock
    showing [later] by then) the stored document differs from the one after
    the first run in [updated_at] only, which is [later]. *)
Theorem update_task_twice task_id payload w d oid doc later :
  db w = Some d → db_fault d = None →
  ObjectId_of_str task_id = Some oid →
  stored w TASK_COLLECTION !! oid = Some doc →
  update_fields payload ≠ ∅ →
  ∃ doc1 doc2,
    stored (update_task task_id payload w).2 TASK_COLLECTION !! oid = Some doc1 ∧
    stored (update_task task_id payload
              (set_clock later (update_task task_id payload w).2)).2
      TASK_COLLECTION !! oid = Some doc2 ∧
    (∀ k, k ≠ "updated_at" → doc2 !! k = doc1 !! k) ∧
    doc2 !! "updated_at" = Some (VDatetime later).
Proof.
  intros Hd Hf Hoid Hdoc Hne. rewrite (stored_healthy _ _ _ Hd) in Hdoc.
  rewrite (update_task_run _ _ _ d oid Hd Hf Hoid Hne). cbv zeta. rewrite Hdoc.
  cbn [snd].
  erewrite update_task_run; [|reflexivity|exact Hf|exact Hoid|exact Hne].
  cbv zeta. rewrite collection_set_collection, lookup_insert_eq. cbn [snd].
  rewrite !stored_after, !collection_set_collection.
  eexists _, _. split; [apply lookup_insert_eq|]. split; [apply lookup_insert_eq|].
  split.
  - intros k Hk. rewrite !lookup_union, !lookup_insert_ne by congruence.
    destruct (update_fields payload !! k), (doc !! k); reflexivity.
  - apply lookup_union_Some_l. apply lookup_insert_eq.
Qed.

(** X8. A valid update keeps the title well-formed: on a working database,
    if the stored title is a string of 1 to 200 characters and the body
    passes the [TaskUpdate] field constraints, the stored title after the
    update is again a string of 1 to 200 characters. *)
Theorem update_task_keeps_title_valid task_id payload w d oid doc title :
  db w = Some d → db_fault d = None →
  ObjectId_of_str task_id = Some oid →
  stored w TASK_COLLECTION !! oid = Some doc →
  TaskUpdate_valid payload = true →
  doc !! "title" = Some (VStr title) →
  (1 ≤ String.length title ≤ 200)%nat →
  ∃ doc' title',
    stored (update_task task_id payload w).2 TASK_COLLECTION !! oid = Some doc' ∧
    doc' !! "title" = Some (VStr title') ∧
    (1 ≤ String.length title' ≤ 200)%nat.
Proof.
  intros Hd Hf Hoid Hdoc Hvalid Htitle Hlen.
  rewrite (stored_healthy _ _ _ Hd) in Hdoc.
  destruct (decide (update_fields payload = ∅)) as [He|Hne].
  { rewrite (update_task_run_empty _ _ _ oid Hoid He). cbn [snd].
    rewrite (stored_healthy _ _ _ Hd). eauto. }
  rewrite (update_task_run _ _ _ d oid Hd Hf Hoid Hne). cbv zeta. rewrite Hdoc.
  cbn [snd]. rewrite stored_after, collection_set_collection.
  clear Hne Hdoc.
  assert ((<["updated_at" := VDatetime (clock w)]> (update_fields payload) ∪ doc)
            !! "title"
          = Some (VStr (default title (update_title payload)))) as Hnew.
  { rewrite lookup_union, lookup_insert_ne, update_fields_title, Htitle by discriminate.
    destruct (update_title payload); reflexivity. }
  eexists _, _. split; [apply lookup_insert_eq|]. split; [exact Hnew|].
  unfold TaskUpdate_valid in Hvalid. apply andb_prop in Hvalid as [Ht _].
  destruct (update_title payload) as [t|]; cbn [default from_option id] in *;
    [|exact Hlen].
  apply andb_prop in Ht as [H1 H2].
  apply Nat.leb_le in H1, H2. split; assumption.
Qed.

End HandlersFurther.

(** ** The diagnostics endpoint, once more *)

Section DiagnosticsFurther.
Context {L : Library}.

Lemma str_take_length n s : (String.length (str_take n s) ≤ n)%nat.
Proof.
  unfold str_take. revert s. induction n as [|n IH]; intros [|c s]; simpl; try lia.
  specialize (IH s). lia.
Qed.

Lemma str_take_prefix n s : ∃ rest, s = str_take n s +:+ rest.
Proof.
  unfold str_take. revert s. induction n as [|n IH]; intros [|c s]; simpl.
  - by exists "".
  - by exists (String c s).
  - by exists "".
  - destruct (IH s) as [rest Hrest]. exists rest. rewrite Hrest at 1. reflexivity.
Qed.

Lemma str_take_short n s : (String.length s ≤ n)%nat → str_take n s = s.
Proof.
  unfold str_take. revert s. induction n as [|n IH]; intros [|c s]; simpl;
    try reflexivity; try lia.
  intros Hlen. rewrite IH by lia. reflexivity.
Qed.

(** X9. In every world the response's [database_url] and [database_name]
    say whether the environment variables [DATABASE_URL] and [DATABASE_NAME]
    are set to a non-empty string, and nothing else: what the handler wrote
    there before from the database (its name, "Configured") never reaches
    the caller. [backend] is always "Running". *)
Theorem test_database_reports_environment (w : World) :
  ∃ r,
    (test_database w).1 = Return r ∧
    backend r = "✅ Running" ∧
    database_url r
    = Some (if env_set (environ w !! "DATABASE_URL") then "✅ Set" else "❌ Not Set") ∧
    database_name r
    = Some (if env_set (environ w !! "DATABASE_NAME") then "✅ Set" else "❌ Not Set").
Proof.
  unfold test_database, test_database_body.
  unfold try_except at 1. rewrite !bind_run.
  unfold global at 1, gets at 1. cbn [fst snd].
  destruct w as [dbw clk env cs]. cbn [db clock environ calls].
  destruct dbw as [d|]; [|eexists; split; [reflexivity|]; cbn; repeat split].
  destruct d as [nm fault names colls issued].
  destruct nm as [v| |e]; destruct fault as [[cls msg]|];
    eexists; (split; [reflexivity|]); cbn; repeat split.
Qed.

(** X10. [connection_status] is "Connected" exactly when there is a database
    handle and reading its name did not raise, also when the server then
    fails to answer; otherwise it stays "Not Connected". *)
Theorem test_database_connection_status (w : World) :
  ∃ r,
    (test_database w).1 = Return r ∧
    connection_status r
    = match db w with
      | Some d =>
        match db_name d with
        | AttrRaises _ => "Not Connected"
        | _ => "Connected"
        end
      | None => "Not Connected"
      end.
Proof.
  unfold test_database, test_database_body.
  unfold try_except at 1. rewrite !bind_run.
  unfold global at 1, gets at 1. cbn [fst snd].
  destruct w as [dbw clk env cs]. cbn [db clock environ calls].
  destruct dbw as [d|]; [|eexists; split; reflexivity].
  destruct d as [nm fault names colls issued].
  destruct nm as [v| |e]; destruct fault as [[cls msg]|];
    eexists; split; reflexivity.
Qed.

(** X11. The exception text is cut at 50 characters. When the server does
    not answer and raises an exception with message [msg], [database] is
    "Connected but Error: " followed by a prefix of [msg] of at most 50
    characters, all of [msg] when it is no longer than that. *)
Theorem test_database_truncates_error (w : World) d cls msg :
  db w = Some d →
  (∀ e, db_name d ≠ AttrRaises e) →
  db_fault d = Some (cls, msg) →
  ∃ r text rest,
    (test_database w).1 = Return r ∧
    database r = "⚠️  Connected but Error: " +:+ text ∧
    msg = text +:+ rest ∧
    (String.length text ≤ 50)%nat ∧
    ((String.length msg ≤ 50)%nat → text = msg).
Proof.
  intros Hd Hname Hf.
  destruct (str_take_prefix 50 msg) as [rest Hrest].
  assert (∃ r, (test_database w).1 = Return r ∧
               database r = "⚠️  Connected but Error: " +:+ str_take 50 msg)
    as (r & Hrun & Hr).
  { unfold test_database, test_database_body.
    unfold try_except at 1. rewrite !bind_run.
    unfold global at 1, gets at 1. cbn [fst snd].
    destruct w as [dbw clk env cs]. cbn [db clock environ calls] in *.
    subst dbw. destruct d as [nm fault names colls issued].
    cbn [db_name db_fault] in *. subst fault.
    destruct nm as [v| |e]; [| |by destruct (Hname e)];
      eexists; split; reflexivity. }
  exists r, (str_take 50 msg), rest.
  split; [exact Hrun|]. split; [exact Hr|]. split; [exact Hrest|].
  split; [apply str_take_length|apply str_take_short].
Qed.

End DiagnosticsFurther.

(** ** The further properties on the example world *)

Lemma example_update_nonempty : update_fields example_update ≠ ∅.
Proof.
  intros He. apply (f_equal (λ m : gmap string value, m !! "completed")) in He.
  vm_compute in He. discriminate He.
Qed.

(** X3 on the example world: a toggle of task [0]. *)
Lemma toggle_task_effect_witness :
  ∃ doc',
    stored (toggle_task "0" example_world).2 TASK_COLLECTION !! 0%N = Some doc' ∧
    doc' !! "completed"
    = Some (VBool (negb (truthy (dict_get example_task "completed" (VBool false))))) ∧
    (example_task !! "completed" = None → doc' !! "completed" = Some (VBool true)) ∧
    (∀ k, k ≠ "completed" → k ≠ "updated_at" → doc' !! k = example_task !! k) ∧
    (∀ oid', oid' ≠ 0%N →
       stored (toggle_task "0" example_world).2 TASK_COLLECTION !! oid'
       = stored example_world TASK_COLLECTION !! oid').
Proof.
  apply (toggle_task_effect "0" example_world example_db 0%N example_task);
    reflexivity.
Defined.

(** X4 on the example world: the identifier [1] names no stored document. *)
Lemma not_found_writes_nothing_witness :
  ((toggle_task "1" example_world).1 = Raise (HTTPException 404 "Task not found") ∧
   db (toggle_task "1" example_world).2 = db example_world ∧
   calls (toggle_task "1" example_world).2
   = FindOne TASK_COLLECTION 1%N :: calls example_world) ∧
  (update_fields example_update ≠ ∅ →
   (update_task "1" example_update example_world).1
   = Raise (HTTPException 404 "Task not found") ∧
   db (update_task "1" example_update example_world).2 = db example_world ∧
   calls (update_task "1" example_update example_world).2
   = UpdateOne TASK_COLLECTION 1%N
       (<["updated_at" := VDatetime (clock example_world)]>
          (update_fields example_update)) :: calls example_world).
Proof.
  apply (not_found_writes_nothing "1" example_update example_world example_db 1%N);
    reflexivity.
Defined.

(** X5 on the world without a database and on the one whose server is down. *)
Lemma store_failure_surfaces_witness :
  toggle_task "0" no_db_world
  = (Raise (Exception "TypeError" "'NoneType' object is not subscriptable"),
     no_db_world) ∧
  delete_task "0" faulty_world
  = (Raise (Exception "ServerSelectionTimeoutError"
              "localhost:27017: [Errno 111] Connection refused, Timeout: 30s"),
     log_call (DeleteOne TASK_COLLECTION 0%N) faulty_world).
Proof.
  split.
  - apply (store_failure_surfaces "0" example_update no_db_world 0%N eq_refl
             example_update_nonempty).
    reflexivity.
  - eapply (store_failure_surfaces "0" example_update faulty_world 0%N eq_refl
              example_update_nonempty); reflexivity.
Defined.

(** X6 on the example world: task [0] deleted, then toggled and updated. *)
Lemma deleted_task_not_found_witness :
  (delete_task "0" example_world).1 = Return true ∧
  (toggle_task "0" (delete_task "0" example_world).2).1
  = Raise (HTTPException 404 "Task not found") ∧
  (update_task "0" example_update (delete_task "0" example_world).2).1
  = Raise (HTTPException 404 "Task not found").
Proof.
  apply (deleted_task_not_found "0" example_update example_world example_db 0%N
           example_task eq_refl eq_refl eq_refl eq_refl example_update_nonempty).
Defined.

(** X7 on the example world: [example_update] applied twice to task [0]. *)
Lemma update_task_twice_witness :
  ∃ doc1 doc2,
    stored (update_task "0" example_update example_world).2 TASK_COLLECTION !! 0%N
    = Some doc1 ∧
    stored (update_task "0" example_update
              (set_clock example_time (update_task "0" example_update example_world).2)).2
      TASK_COLLECTION !! 0%N = Some doc2 ∧
    (∀ k, k ≠ "updated_at" → doc2 !! k = doc1 !! k) ∧
    doc2 !! "updated_at" = Some (VDatetime example_time).
Proof.
  apply (update_task_twice "0" example_update example_world example_db 0%N
           example_task example_time eq_refl eq_refl eq_refl eq_refl
           example_update_nonempty).
Defined.

(** X8 on the example world: the stored title "Buy milk" and the valid body
    [example_update]. *)
Lemma update_task_keeps_title_valid_witness :
  ∃ doc' title',
    stored (update_task "0" example_update example_world).2 TASK_COLLECTION !! 0%N
    = Some doc' ∧
    doc' !! "title" = Some (VStr title') ∧
    (1 ≤ String.length title' ≤ 200)%nat.
Proof.
  apply (update_task_keeps_title_valid "0" example_update example_world example_db
           0%N example_task "Buy milk" eq_refl eq_refl eq_refl eq_refl eq_refl
           eq_refl).
  split; apply Nat.leb_le; reflexivity.
Defined.

(** X11 on the world whose server is down: the message has 61 characters. *)
Lemma test_database_truncates_error_witness :
  ∃ r text rest,
    (test_database faulty_world).1 = Return r ∧
    database r = "⚠️  Connected but Error: " +:+ text ∧
    "localhost:27017: [Errno 111] Connection refused, Timeout: 30s" = text +:+ rest ∧
    (String.length text ≤ 50)%nat ∧
    ((String.length "localhost:27017: [Errno 111] Connection refused, Timeout: 30s"
      ≤ 50)%nat →
     text = "localhost:27017: [Errno 111] Connection refused, Timeout: 30s").
Proof.
  apply (test_database_truncates_error faulty_world faulty_db
           "ServerSelectionTimeoutError"
           "localhost:27017: [Errno 111] Connection refused, Timeout: 30s").
  - reflexivity.
  - intros e. discriminate.
  - reflexivity.
Defined.
